(** * DH_geocoding: the geocoding resolution pipeline

    A shallow embedding of [src/geocoding.py] (the Streamlit application) and
    of its saved variant [src/.ipynb_checkpoints/geocoding-checkpoint.py]:
    the two-tier V-World lookup [geocoding_latlong], the per-row wrapper
    [process_row], the converter [convert_tm] and the collection loop that
    runs under the thread pool.

    Python values are modelled as they are at run time: [str] as a list of
    Unicode code points, [float] as a binary64 number, a [dict] with string
    keys as a finite map, exceptions as values of a sum type, and the
    network as a log of the requests issued so far. *)

From Stdlib Require Import ZArith NArith List Ascii String Floats.PrimFloat.
From stdpp Require Import base gmap list strings pretty.

Set Warnings "-inexact-float,-register-all".
Local Open Scope Z_scope.

(** ** Python strings *)

(** A Python [str] is a sequence of code points. *)
Abbreviation pystr := (list N).

(** String literals of the source are written in UTF-8 in this file and
    decoded to code points. Only well-formed input is ever given. *)
Fixpoint utf8_decode (bs : list N) : pystr :=
  match bs with
  | [] => []
  | b :: r =>
    if (b <? 128)%N then b :: utf8_decode r
    else if (b <? 224)%N then
      match r with
      | c1 :: r1 => ((b - 192) * 64 + (c1 - 128))%N :: utf8_decode r1
      | _ => []
      end
    else if (b <? 240)%N then
      match r with
      | c1 :: c2 :: r2 =>
        ((b - 224) * 4096 + (c1 - 128) * 64 + (c2 - 128))%N :: utf8_decode r2
      | _ => []
      end
    else
      match r with
      | c1 :: c2 :: c3 :: r3 =>
        ((b - 240) * 262144 + (c1 - 128) * 4096 + (c2 - 128) * 64 + (c3 - 128))%N
          :: utf8_decode r3
      | _ => []
      end
  end.

Definition py (s : string) : pystr :=
  utf8_decode (N_of_ascii <$> list_ascii_of_string s).

(** [str.isspace] on one code point, as CPython's [Py_UNICODE_ISSPACE]:
    the characters [str.strip()] removes. *)
Definition isspace (c : N) : bool :=
  ((9 <=? c) && (c <=? 13) || (28 <=? c) && (c <=? 32)
   || (c =? 133) || (c =? 160) || (c =? 5760)
   || (8192 <=? c) && (c <=? 8202)
   || (c =? 8232) || (c =? 8233) || (c =? 8239) || (c =? 8287)
   || (c =? 12288))%N.

Fixpoint lstrip (s : pystr) : pystr :=
  match s with
  | c :: r => if isspace c then lstrip r else s
  | [] => []
  end.

Definition rstrip (s : pystr) : pystr := reverse (lstrip (reverse s)).

(** [s.strip()] *)
Definition strip (s : pystr) : pystr := rstrip (lstrip s).

(** [str(n)] for an [int]. *)
Definition str_of_int (z : Z) : pystr := py (pretty z).

(** ** Python values *)

(** The scalars found in a spreadsheet cell, in a result dictionary and at the
    leaves of a JSON document. [VNone] stands for [None] (JSON [null], and
    the missing values [pd.NA] and [pd.NaT] of a cell); a missing number is
    the float NaN. *)
Inductive value : Type :=
| VNone
| VBool (b : bool)
| VInt (z : Z)
| VFloat (f : float)
| VStr (s : pystr).

(** What [json.loads] builds: scalars, lists, and dicts with string keys (the
    first binding of a key is the one the dict holds). *)
Inductive json : Type :=
| JVal (v : value)
| JArr (items : list json)
| JObj (fields : list (pystr * json)).

(** The exceptions the lookup can meet, all of them subclasses of
    [Exception]: the ones subscripting, [dict.get] and [float()] raise, and
    whatever [requests.get] and [Response.json] raise. *)
Inductive Exc : Type :=
| KeyError (key : pystr)
| TypeError (v : json)
| ValueError (s : pystr)
| OverflowError (z : Z)
| AttributeError (v : json)
| RequestException (msg : pystr)
| JSONDecodeError (msg : pystr).

(** The parts of the Python runtime and of the libraries that the source
    calls and that are not in the repository. *)
Class Runtime : Type := {
  (** [float(s)] on a [str]; [None] when it raises [ValueError] *)
  float_of_str : pystr -> option float;
  (** [float(n)] on an [int]; [None] when it raises [OverflowError] *)
  float_of_int : Z -> option float;
  (** [str(x)] on a [float] *)
  float_repr : float -> pystr;
  (** [str(x)] on a list or a dict *)
  json_repr : json -> pystr;
  (** [str(e)] on an exception *)
  exc_str : Exc -> pystr;
  (** [Transformer.from_crs(src, dst).transform(a, b)] of pyproj *)
  transform : pystr -> pystr -> float -> float -> float * float
}.

(** The error monad of plain Python expressions. *)
Definition result (A : Type) : Type := Exc + A.

Definition rbind {A B : Type} (r : result A) (k : A -> result B) : result B :=
  match r with
  | inl e => inl e
  | inr a => k a
  end.

(** [pd.isna(x)] on a scalar. *)
Definition isna (v : value) : bool :=
  match v with
  | VNone => true
  | VFloat f => PrimFloat.is_nan f
  | _ => false
  end.

(** Truth value of a scalar, as [if x:] tests it. *)
Definition truthy (v : value) : bool :=
  match v with
  | VNone => false
  | VBool b => b
  | VInt z => negb (z =? 0)
  | VFloat f => negb (PrimFloat.eqb f 0%float)
  | VStr s => negb (bool_decide (s = []))
  end.

(** [v == 'literal'] for a JSON value [v]. *)
Definition str_eq (v : json) (s : pystr) : bool :=
  match v with
  | JVal (VStr t) => bool_decide (t = s)
  | _ => false
  end.

(** The first binding of [k] in a list of pairs. *)
Fixpoint assoc {A : Type} (k : pystr) (fields : list (pystr * A)) : option A :=
  match fields with
  | [] => None
  | (k', v) :: rest => if bool_decide (k' = k) then Some v else assoc k rest
  end.

(** [v[key]] with a string key. *)
Definition getitem (v : json) (key : pystr) : result json :=
  match v with
  | JObj fields =>
    match assoc key fields with
    | Some x => inr x
    | None => inl (KeyError key)
    end
  | _ => inl (TypeError v)
  end.

(** [v.get(key, dflt)] *)
Definition dict_get (v : json) (key : pystr) (dflt : json) : result json :=
  match v with
  | JObj fields => inr (default dflt (assoc key fields))
  | _ => inl (AttributeError v)
  end.

Section Builtins.
Context {rt : Runtime}.

(** [str(v)] on a scalar. *)
Definition py_str (v : value) : pystr :=
  match v with
  | VNone => py "None"
  | VBool true => py "True"
  | VBool false => py "False"
  | VInt z => str_of_int z
  | VFloat f => float_repr f
  | VStr s => s
  end.

(** [str(v)] on a JSON value, as an f-string formats it. *)
Definition json_str (v : json) : pystr :=
  match v with
  | JVal x => py_str x
  | _ => json_repr v
  end.

(** [float(v)] *)
Definition py_float (v : json) : result float :=
  match v with
  | JVal (VFloat f) => inr f
  | JVal (VInt z) =>
    match float_of_int z with
    | Some f => inr f
    | None => inl (OverflowError z)
    end
  | JVal (VBool b) => inr (if b then 1%float else 0%float)
  | JVal (VStr s) =>
    match float_of_str s with
    | Some f => inr f
    | None => inl (ValueError s)
    end
  | _ => inl (TypeError v)
  end.

End Builtins.

(** ** The network *)

(** One call of [requests.get(url, params=..., headers=..., timeout=...)]. *)
Record Request : Type := {
  req_url : pystr;
  req_params : list (pystr * pystr);
  req_headers : list (pystr * pystr);
  req_timeout : Z
}.

(** What the caller reads of a [requests.Response]: the status code, and
    what [response.json()] returns or raises. *)
Record Response : Type := {
  status_code : Z;
  json_body : result json
}.

(** A behaviour of the remote service: what a request returns or raises,
    given the requests issued before it. *)
Definition Remote : Type := list Request -> Request -> result Response.

(** Computations that issue requests: the state is the log of the requests
    issued so far, oldest first; a computation returns a value or raises. *)
Definition M (A : Type) : Type := list Request -> result A * list Request.

Definition ret {A : Type} (a : A) : M A := fun log => (inr a, log).

Definition raise {A : Type} (e : Exc) : M A := fun log => (inl e, log).

Definition bind {A B : Type} (m : M A) (k : A -> M B) : M B :=
  fun log =>
    match m log with
    | (inr a, log') => k a log'
    | (inl e, log') => (inl e, log')
    end.

(** An expression that may raise, evaluated inside a computation. *)
Definition lift {A : Type} (r : result A) : M A :=
  match r with
  | inl e => raise e
  | inr a => ret a
  end.

(** [try: m  except Exception as e: h e] *)
Definition try_except {A : Type} (m : M A) (h : Exc -> M A) : M A :=
  fun log =>
    match m log with
    | (inl e, log') => h e log'
    | (inr a, log') => (inr a, log')
    end.

(** [requests.get]: the request is appended to the log whatever comes back. *)
Definition requests_get (remote : Remote) (req : Request) : M Response :=
  fun log =>
    match remote log req with
    | inl e => (inl e, log ++ [req])
    | inr resp => (inr resp, log ++ [req])
    end.

Notation "x <- c1 ;; c2" := (bind c1 (fun x => c2))
  (at level 100, c1 at next level, right associativity).

Notation "x <~ c1 ;; c2" := (rbind c1 (fun x => c2))
  (at level 100, c1 at next level, right associativity).

(** ** Result dictionaries *)

(** The two shapes of dictionary [geocoding_latlong] returns. *)
Definition Resolved (lat lng : float) : gmap pystr value :=
  <[py "lat" := VFloat lat]>
    (<[py "lng" := VFloat lng]>
      (<[py "found" := VBool true]>
        (<[py "level" := VStr (py "exact")]> ∅))).

Definition Unresolved (reason : pystr) : gmap pystr value :=
  <[py "found" := VBool false]> (<[py "error" := VStr reason]> ∅).

(** [d[key]] on a result dictionary. *)
Definition dict_item (d : gmap pystr value) (key : pystr) : result value :=
  match d !! key with
  | Some v => inr v
  | None => inl (KeyError key)
  end.

(** ** Expressions both files share *)

Section Fields.
Context {rt : Runtime}.

(** [json_data['response']['status']] *)
Definition status_of (json_data : json) : result json :=
  r <~ getitem json_data (py "response") ;;
  getitem r (py "status").

(** [res = json_data['response']['result']['point']] and the dictionary
    returned from it (lines 51-52 and 58-59). *)
Definition point_result (json_data : json) : result (gmap pystr value) :=
  r <~ getitem json_data (py "response") ;;
  r <~ getitem r (py "result") ;;
  res <~ getitem r (py "point") ;;
  y <~ getitem res (py "y") ;;
  lat <~ py_float y ;;
  x <~ getitem res (py "x") ;;
  lng <~ py_float x ;;
  inr (Resolved lat lng).

End Fields.

(** ** src/geocoding.py *)

Module Geocoding.
Section Resolver.
Context {rt : Runtime} (remote : Remote).

Definition base_url : pystr := py "https://api.vworld.kr/req/address?".

Definition headers : list (pystr * pystr) :=
  [ (py "User-Agent",
     py "Mozilla/5.0 (Windows NT 10.0; Win64; x64) AppleWebKit/537.36 (KHTML, like Gecko) Chrome/91.0.4472.124 Safari/537.36");
    (py "Referer", py "https://share.streamlit.io/") ].

Definition get_parms (api_key query type_hint : pystr) : list (pystr * pystr) :=
  [ (py "service", py "address");
    (py "request", py "getcoord");
    (py "version", py "2.0");
    (py "crs", py "epsg:4326");
    (py "address", query);
    (py "refine", py "true");
    (py "simple", py "false");
    (py "format", py "json");
    (py "type", type_hint);
    (py "key", api_key) ].

(** [requests.get(base_url, params=get_parms(address, type_hint),
    headers=headers, timeout=10)] *)
Definition request (api_key address type_hint : pystr) : Request :=
  {| req_url := base_url;
     req_params := get_parms api_key address type_hint;
     req_headers := headers;
     req_timeout := 10 |}.

(** The second attempt (lines 55-59): [Some d] is [return d], [None] is
    leaving the [try] block by its end. *)
Definition road_lookup (address api_key : pystr) : M (option (gmap pystr value)) :=
  response <- requests_get remote (request api_key address (py "ROAD")) ;;
  json_data <- lift (json_body response) ;;
  status <- lift (status_of json_data) ;;
  if str_eq status (py "OK") then
    d <- lift (point_result json_data) ;;
    ret (Some d)
  else ret None.

(** The body of the [try] block (lines 38-59). *)
Definition lookup (address api_key : pystr) : M (option (gmap pystr value)) :=
  response <- requests_get remote (request api_key address (py "PARCEL")) ;;
  if negb (status_code response =? 200) then
    ret (Some (Unresolved (py "HTTP 에러: " ++ str_of_int (status_code response))))
  else
    json_data <- lift (json_body response) ;;
    status <- lift (status_of json_data) ;;
    if negb (str_eq status (py "OK")) then
      (* pass *)
      road_lookup address api_key
    else
      d <- lift (point_result json_data) ;;
      ret (Some d).

Definition geocoding_latlong (address api_key : pystr) : M (gmap pystr value) :=
  r <- try_except (lookup address api_key)
         (fun e => ret (Some (Unresolved (py "시스템 에러: " ++ exc_str e)))) ;;
  match r with
  | Some d => ret d
  | None => ret (Unresolved (py "결과 없음 (V-World 응답 확인 필요)"))
  end.

(** The outcome [res] that [process_row] computes for the cell [addr]. *)
Definition row_outcome (addr : value) (api_key : pystr) : M (gmap pystr value) :=
  if isna addr || bool_decide (strip (py_str addr) = []) then
    ret (Unresolved (py "빈 값"))
  else
    geocoding_latlong (py_str addr) api_key.

(** A row is a pandas Series: column label to cell. [row_dict.update(res)]
    keeps the row's fields and lets the ones of [res] win. *)
Definition process_row (row : gmap pystr value) (addr_col api_key : pystr)
  : M (gmap pystr value) :=
  addr <- lift (dict_item row addr_col) ;;
  res <- row_outcome addr api_key ;;
  ret (res ∪ row).

End Resolver.

Section Orchestrator.
Context {rt : Runtime}.

Definition convert_tm (lat lng : float) : float * float :=
  let '(TMY, TMX) := transform (py "EPSG:4326") (py "EPSG:5186") lat lng in
  (TMX, TMY).

(** pyproj turns a scalar argument into a double with [float()] and raises
    [TypeError] when that fails. *)
Definition as_scalar (v : value) : result float :=
  match py_float (JVal v) with
  | inr f => inr f
  | inl _ => inl (TypeError (JVal v))
  end.

(** Lines 160-163: the TM coordinates of a row that was found. *)
Definition with_tm (row_result : gmap pystr value) : result (gmap pystr value) :=
  if truthy (default VNone (row_result !! py "found")) then
    lat <~ dict_item row_result (py "lat") ;;
    lng <~ dict_item row_result (py "lng") ;;
    lat <~ as_scalar lat ;;
    lng <~ as_scalar lng ;;
    let '(tm_x, tm_y) := convert_tm lat lng in
    inr (<[py "TMY" := VFloat tm_y]> (<[py "TMX" := VFloat tm_x]> row_result))
  else inr row_result.

(** A submitted task: the index [future_to_row] maps it to, and what
    [future.result()] returns or raises. *)
Record Future : Type := {
  future_index : nat;
  future_result : result (gmap pystr value)
}.

(** Line 153: one task per row of the table. Each task talks to the service
    on its own; [services i] is the behaviour the service shows to task [i]. *)
Definition submit_all (services : nat -> Remote) (df : list (gmap pystr value))
    (addr_col api_key : pystr) : list Future :=
  imap (fun i row =>
          {| future_index := i;
             future_result := fst (process_row (services i) row addr_col api_key []) |})
       df.

(** One round of the loop of lines 156-171 on the state
    [(results, completed_count)]. *)
Definition collect_step (st : list (gmap pystr value) * nat) (future : Future)
  : result (list (gmap pystr value) * nat) :=
  row_result <~ future_result future ;;
  row_result <~ with_tm row_result ;;
  inr (st.1 ++ [row_result], S st.2).

(** The loop over [as_completed(future_to_row)]; [completed] lists the
    futures in the order they finish. An exception ends the loop. *)
Fixpoint collect (st : list (gmap pystr value) * nat) (completed : list Future)
  : result (list (gmap pystr value) * nat) :=
  match completed with
  | [] => inr st
  | future :: rest =>
    st' <~ collect_step st future ;;
    collect st' rest
  end.

End Orchestrator.
End Geocoding.

(** ** src/.ipynb_checkpoints/geocoding-checkpoint.py *)

Module Checkpoint.
Section Resolver.
Context {rt : Runtime} (remote : Remote).

Definition base_url : pystr := py "https://api.vworld.kr/req/address?".

Definition headers : list (pystr * pystr) :=
  [ (py "User-Agent",
     py "Mozilla/5.0 (Windows NT 10.0; Win64; x64) Chrome/91.0.4472.124 Safari/537.36");
    (py "Referer", py "https://share.streamlit.io/") ].

Definition get_parms (api_key query type_hint : pystr) : list (pystr * pystr) :=
  [ (py "service", py "address");
    (py "request", py "getcoord");
    (py "version", py "2.0");
    (py "crs", py "epsg:4019");
    (py "address", query);
    (py "refine", py "true");
    (py "simple", py "false");
    (py "format", py "json");
    (py "type", type_hint);
    (py "key", api_key) ].

Definition request (api_key address type_hint : pystr) : Request :=
  {| req_url := base_url;
     req_params := get_parms api_key address type_hint;
     req_headers := headers;
     req_timeout := 10 |}.

(** [msg = data['response'].get('text', '')] and the dictionary returned
    with it (lines 58-59 and 71-72). *)
Definition api_error (data status : json) : result (gmap pystr value) :=
  r <~ getitem data (py "response") ;;
  msg <~ dict_get r (py "text") (JVal (VStr [])) ;;
  inr (Unresolved (py "API 에러: " ++ json_str status ++ py " (" ++ json_str msg ++ py ")")).

(** The second attempt (lines 62-72). *)
Definition road_lookup (address api_key : pystr) : M (option (gmap pystr value)) :=
  response <- requests_get remote (request api_key address (py "ROAD")) ;;
  data <- lift (json_body response) ;;
  status <- lift (status_of data) ;;
  if str_eq status (py "OK") then
    d <- lift (point_result data) ;;
    ret (Some d)
  else if negb (str_eq status (py "NOT_FOUND")) then
    d <- lift (api_error data status) ;;
    ret (Some d)
  else ret None.

(** The body of the [try] block (lines 40-72). *)
Definition lookup (address api_key : pystr) : M (option (gmap pystr value)) :=
  response <- requests_get remote (request api_key address (py "PARCEL")) ;;
  if negb (status_code response =? 200) then
    ret (Some (Unresolved
      (py "HTTP 접속 오류 (" ++ str_of_int (status_code response) ++ py ")")))
  else
    data <- lift (json_body response) ;;
    status <- lift (status_of data) ;;
    if str_eq status (py "OK") then
      d <- lift (point_result data) ;;
      ret (Some d)
    else if str_eq status (py "NOT_FOUND") then
      (* pass *)
      road_lookup address api_key
    else
      d <- lift (api_error data status) ;;
      ret (Some d).

Definition geocoding_latlong (address api_key : pystr) : M (gmap pystr value) :=
  r <- try_except (lookup address api_key)
         (fun e => ret (Some (Unresolved (py "시스템 에러: " ++ exc_str e)))) ;;
  match r with
  | Some d => ret d
  | None => ret (Unresolved (py "주소 불명 (결과 없음)"))
  end.

End Resolver.
End Checkpoint.

(** ** The result table and the shapefile export of src/geocoding.py *)

(** [pd.DataFrame(results)] for a list of dictionaries: one record per
    dictionary, in order; the columns are the keys that occur in some
    dictionary. *)
Record DataFrame : Type := {
  columns : gset pystr;
  records : list (gmap pystr value)
}.

Definition DataFrame_of (results : list (gmap pystr value)) : DataFrame :=
  {| columns := ⋃ (dom <$> results); records := results |}.

(** The cell of a record in a column: a key the record lacks reads as NaN. *)
Definition cell (record : gmap pystr value) (col : pystr) : value :=
  default (VFloat PrimFloat.nan) (record !! col).

(** [df[col]]: the cells of the column, or [KeyError] when the table has no
    such column. *)
Definition df_getitem (df : DataFrame) (col : pystr) : result (list value) :=
  if bool_decide (col ∈ columns df) then inr ((fun record => cell record col) <$> records df)
  else inl (KeyError col).

(** [v == True] on a cell: [True], and the numbers equal to it. *)
Definition eq_True (v : value) : bool :=
  match v with
  | VBool b => b
  | VInt z => z =? 1
  | VFloat f => PrimFloat.eqb f 1%float
  | _ => false
  end.

(** [df[mask]]: the records whose mask entry is true, in order. *)
Fixpoint df_mask (rows : list (gmap pystr value)) (mask : list bool)
  : list (gmap pystr value) :=
  match rows, mask with
  | row :: rows', b :: mask' => if b then row :: df_mask rows' mask' else df_mask rows' mask'
  | _, _ => []
  end.

Section Shapefile.

(** Lines 95-112 once the coordinates are paired: the points, the
    GeoDataFrame with its CRS, the text conversion of object columns, the
    ESRI Shapefile written in cp949 under the prefix, and the zip of the
    files; geopandas and zipfile do the work and may raise. The arguments
    are the CRS, the prefix, the records and their (lng, lat) pairs. *)
Variable shapefile_zip :
  pystr -> pystr -> list (gmap pystr value) -> list (value * value) -> result (list N).

Definition convert_to_shp_zip (df : DataFrame) (file_name_prefix : pystr)
  : result (option (list N)) :=
  found <~ df_getitem df (py "found") ;;
  let valid_df :=
    {| columns := columns df; records := df_mask (records df) (eq_True <$> found) |} in
  if bool_decide (records valid_df = []) then inr None
  else
    lng <~ df_getitem valid_df (py "lng") ;;
    lat <~ df_getitem valid_df (py "lat") ;;
    zip_bytes <~ shapefile_zip (py "EPSG:4326") file_name_prefix
                   (records valid_df) (zip lng lat) ;;
    inr (Some zip_bytes).

End Shapefile.

(** ** Vocabulary of the statements *)

(** The JSON object [{"x": x, "y": y}]. *)
Definition point_xy (x y : float) : json :=
  JObj [ (py "x", JVal (VFloat x)); (py "y", JVal (VFloat y)) ].

(** The reply [body] carries the service status [status], a string, under
    [response.status]. *)
Definition has_status (body : json) (status : pystr) : Prop :=
  exists r, getitem body (py "response") = inr r
            /\ getitem r (py "status") = inr (JVal (VStr status)).

(** The reply [body] carries [point] under [response.result.point]. *)
Definition has_point (body point : json) : Prop :=
  exists r res, getitem body (py "response") = inr r
                /\ getitem r (py "result") = inr res
                /\ getitem res (py "point") = inr point.

(** The two outcomes of a lookup, as dictionaries. *)
Definition LookupOutcome (d : gmap pystr value) : Prop :=
  (exists lat lng, d = Resolved lat lng) \/ (exists reason, d = Unresolved reason).

(** Number of requests a computation issues when started on [log]. *)
Definition calls {A : Type} (m : M A) (log : list Request) : nat :=
  (length (snd (m log)) - length log)%nat.

(** The lookup-mode hints of the two attempts. *)
Definition PARCEL : pystr := py "PARCEL".
Definition ROAD : pystr := py "ROAD".

(** A request of the second attempt: its [type] parameter is [ROAD]. *)
Definition is_road (req : Request) : bool :=
  bool_decide (assoc (py "type") (req_params req) = Some ROAD).

(** The service [remote] with the status code of every reply to a [ROAD]
    request rewritten by [f]; bodies and failures are kept. *)
Definition with_road_status (f : Z -> Z) (remote : Remote) : Remote :=
  fun log req =>
    if is_road req then
      match remote log req with
      | inr resp => inr {| status_code := f (status_code resp); json_body := json_body resp |}
      | inl e => inl e
      end
    else remote log req.

Section Readings.
Context {rt : Runtime}.

(** src/geocoding.py: what the [except] clause and the last [return] make of
    the way the [try] block ends. *)
Definition closing (r : result (option (gmap pystr value))) : gmap pystr value :=
  match r with
  | inl e => Unresolved (py "시스템 에러: " ++ exc_str e)
  | inr (Some d) => d
  | inr None => Unresolved (py "결과 없음 (V-World 응답 확인 필요)")
  end.

(** src/geocoding.py: how the [try] block ends after the second request, read
    off what [response.json()] gives for the second reply. *)
Definition road_reading (body : result json) : result (option (gmap pystr value)) :=
  json_data <~ body ;;
  status <~ status_of json_data ;;
  if str_eq status (py "OK") then
    d <~ point_result json_data ;;
    inr (Some d)
  else inr None.

(** The same two readings for the checkpoint file. *)
Definition ckpt_closing (r : result (option (gmap pystr value))) : gmap pystr value :=
  match r with
  | inl e => Unresolved (py "시스템 에러: " ++ exc_str e)
  | inr (Some d) => d
  | inr None => Unresolved (py "주소 불명 (결과 없음)")
  end.

Definition ckpt_road_reading (body : result json) : result (option (gmap pystr value)) :=
  data <~ body ;;
  status <~ status_of data ;;
  if str_eq status (py "OK") then
    d <~ point_result data ;;
    inr (Some d)
  else if negb (str_eq status (py "NOT_FOUND")) then
    d <~ Checkpoint.api_error data status ;;
    inr (Some d)
  else inr None.

End Readings.

(** ** Test doubles *)

(** A runtime for running the model on concrete inputs: [float()] accepts no
    string and no integer, and every description is empty. *)
Definition plain_runtime : Runtime :=
  {| float_of_str := fun _ => None;
     float_of_int := fun _ => None;
     float_repr := fun _ => [];
     json_repr := fun _ => [];
     exc_str := fun _ => [];
     transform := fun _ _ a b => (a, b) |}.

(** The reply [{"response": {"status": status}}]. *)
Definition status_reply (status : pystr) : json :=
  JObj [ (py "response", JObj [ (py "status", JVal (VStr status)) ]) ].

(** The reply [{"response": {"status": "OK", "result": {"point": {"x": x, "y": y}}}}]. *)
Definition ok_reply (x y : float) : json :=
  JObj [ (py "response",
          JObj [ (py "status", JVal (VStr (py "OK")));
                 (py "result", JObj [ (py "point", point_xy x y) ]) ]) ].

(** A service that answers every request with HTTP [code] and [body]. *)
Definition always (code : Z) (body : json) : Remote :=
  fun _ _ => inr {| status_code := code; json_body := inr body |}.

(** A service that answers the first request with [first] and every later
    one with [later]. *)
Definition first_then (first later : Response) : Remote :=
  fun log _ =>
    match log with
    | [] => inr first
    | _ => inr later
    end.

(** A cell that holds no address: [None], a NaN, or a string of whitespace
    only (the empty string is one). *)
Definition no_address (addr : value) : Prop :=
  addr = VNone
  \/ (exists f, addr = VFloat f /\ PrimFloat.is_nan f = true)
  \/ (exists s, addr = VStr s /\ forallb isspace s = true).

(** The columns the pipeline adds to a row. *)
Definition result_columns : list pystr :=
  [ py "found"; py "level"; py "error"; py "lat"; py "lng"; py "TMX"; py "TMY" ].

(** What one round of the loop appends for a finished task. *)
Definition appended_row {rt : Runtime} (future : Geocoding.Future)
  : result (gmap pystr value) :=
  row_result <~ Geocoding.future_result future ;;
  Geocoding.with_tm row_result.

(** The row the loop appends for a finished task, if the task and the TM
    step raise nothing. *)
Definition row_of {rt : Runtime} (future : Geocoding.Future) : option (gmap pystr value) :=
  match appended_row future with
  | inr rr => Some rr
  | inl _ => None
  end.

(** A table of three rows with the address column "주소": an address, an
    empty cell and a cell of blanks. *)
Definition sample_table : list (gmap pystr value) :=
  [ <[py "주소" := VStr (py "서울특별시 중구 세종대로 110")]> (<[py "id" := VInt 1]> ∅);
    <[py "주소" := VNone]> (<[py "id" := VInt 2]> ∅);
    <[py "주소" := VStr (py "   ")]> (<[py "id" := VInt 3]> ∅) ].

(** A service that answers the first request with [first] and every later
    one with [later], whatever is asked; either may be an exception. *)
Definition answers (first later : result Response) : Remote :=
  fun log _ =>
    match log with
    | [] => first
    | _ => later
    end.

(** What every request of src/geocoding.py carries: the endpoint, the two
    headers, the timeout, the fixed parameters, the address and the key. *)
Definition carries (api_key address : pystr) (req : Request) : Prop :=
  req_url req = Geocoding.base_url
  /\ req_headers req = Geocoding.headers
  /\ req_timeout req = 10
  /\ assoc (py "service") (req_params req) = Some (py "address")
  /\ assoc (py "request") (req_params req) = Some (py "getcoord")
  /\ assoc (py "version") (req_params req) = Some (py "2.0")
  /\ assoc (py "crs") (req_params req) = Some (py "epsg:4326")
  /\ assoc (py "refine") (req_params req) = Some (py "true")
  /\ assoc (py "simple") (req_params req) = Some (py "false")
  /\ assoc (py "format") (req_params req) = Some (py "json")
  /\ assoc (py "address") (req_params req) = Some address
  /\ assoc (py "key") (req_params req) = Some api_key.

(** The lookup-mode hint of a request. *)
Definition type_of (req : Request) : option pystr := assoc (py "type") (req_params req).

(** A runtime whose [float()] reads the two decimal strings "37.5" and
    "127.0" and no other. *)
Definition decimal_runtime : Runtime :=
  {| float_of_str := fun s =>
       if bool_decide (s = py "37.5") then Some 37.5%float
       else if bool_decide (s = py "127.0") then Some 127.0%float
       else None;
     float_of_int := fun _ => None;
     float_repr := fun _ => [];
     json_repr := fun _ => [];
     exc_str := fun _ => [];
     transform := fun _ _ a b => (a, b) |}.

(** The reply [OK] with the coordinates given as strings, as V-World sends
    them. *)
Definition ok_reply_str (x y : pystr) : json :=
  JObj [ (py "response",
          JObj [ (py "status", JVal (VStr (py "OK")));
                 (py "result",
                  JObj [ (py "point",
                          JObj [ (py "x", JVal (VStr x)); (py "y", JVal (VStr y)) ]) ]) ]) ].

(** A result row says found. *)
Definition is_found (record : gmap pystr value) : bool :=
  match record !! py "found" with
  | Some (VBool true) => true
  | _ => false
  end.

(** The shape of a result row, whatever else the row holds: found with the
    four coordinates as floats, or not found with an error text. *)
Definition result_row_shape (rr : gmap pystr value) : Prop :=
  (rr !! py "found" = Some (VBool true)
   /\ exists lat lng tm_x tm_y,
        rr !! py "lat" = Some (VFloat lat) /\ rr !! py "lng" = Some (VFloat lng)
        /\ rr !! py "TMX" = Some (VFloat tm_x) /\ rr !! py "TMY" = Some (VFloat tm_y))
  \/ (rr !! py "found" = Some (VBool false)
      /\ exists reason, rr !! py "error" = Some (VStr reason)).

(** A writer that succeeds with one byte, the number of points. *)
Definition counting_zip (crs file_name_prefix : pystr)
    (rows : list (gmap pystr value)) (points : list (value * value)) : result (list N) :=
  inr [N.of_nat (length points)].

(** A row whose address has blanks at both ends. *)
Definition padded_row : gmap pystr value :=
  <[py "주소" := VStr (py " 세종대로 110 ")]> (<[py "id" := VInt 7]> ∅).

(** A sheet row that has a column named error of its own. *)
Definition row_with_error_column : gmap pystr value :=
  <[py "주소" := VStr (py "세종대로 110")]> (<[py "error" := VStr (py "수기 입력")]> ∅).

(** A result table of two rows: one not found, one found. *)
Definition sample_results : list (gmap pystr value) :=
  [ Unresolved (py "빈 값") ∪ <[py "id" := VInt 2]> ∅;
    <[py "TMY" := VFloat 37.5]>
      (<[py "TMX" := VFloat 127.0]> (Resolved 37.5 127.0 ∪ <[py "id" := VInt 1]> ∅)) ].

(** Two string literals differ: by evaluation. *)
Ltac py_ne := let H := fresh in intros H; vm_compute in H; discriminate H.

Arguments py : simpl never.
Arguments str_of_int : simpl never.
Arguments Resolved : simpl never.
Arguments Unresolved : simpl never.

Section Resolver_facts.
Context {rt : Runtime}.
Implicit Types (remote : Remote) (address api_key : pystr) (log : list Request).

Import Geocoding.

Lemma status_of_has_status body status :
  has_status body status -> status_of body = inr (JVal (VStr status)).
Proof.
  intros (r & Hr & Hs). unfold status_of, rbind. by rewrite Hr.
Qed.

Lemma point_result_has_point body x y :
  has_point body (point_xy x y) -> point_result body = inr (Resolved y x).
Proof.
  intros (r & res & Hr & Hres & Hp).
  unfold point_result, rbind. rewrite Hr, Hres, Hp.
  reflexivity.
Qed.

(** The three steps of the lookup, as equations. *)

Lemma geocoding_latlong_eq remote address api_key log :
  geocoding_latlong remote address api_key log
  = (inr (closing (lookup remote address api_key log).1),
     (lookup remote address api_key log).2).
Proof.
  unfold geocoding_latlong, try_except, bind, ret.
  destruct (lookup remote address api_key log) as [[e|[d|]] log']; reflexivity.
Qed.

Lemma road_lookup_eq remote address api_key log :
  road_lookup remote address api_key log
  = (response <~ remote log (request api_key address ROAD) ;;
     road_reading (json_body response),
     log ++ [request api_key address ROAD]).
Proof.
  unfold road_lookup, road_reading, bind, requests_get, rbind. fold ROAD.
  destruct (remote log _) as [e|[code [e|json_data]]]; cbn; try reflexivity.
  destruct (status_of json_data) as [e|status]; cbn; try reflexivity.
  destruct (str_eq status (py "OK")); cbn; try reflexivity.
  destruct (point_result json_data); reflexivity.
Qed.

Lemma lookup_eq remote address api_key log :
  lookup remote address api_key log
  = match remote log (request api_key address PARCEL) with
    | inl e => (inl e, log ++ [request api_key address PARCEL])
    | inr response =>
      if negb (status_code response =? 200) then
        (inr (Some (Unresolved (py "HTTP 에러: " ++ str_of_int (status_code response)))),
         log ++ [request api_key address PARCEL])
      else
        match json_body response with
        | inl e => (inl e, log ++ [request api_key address PARCEL])
        | inr json_data =>
          match status_of json_data with
          | inl e => (inl e, log ++ [request api_key address PARCEL])
          | inr status =>
            if negb (str_eq status (py "OK")) then
              road_lookup remote address api_key (log ++ [request api_key address PARCEL])
            else
              (d <~ point_result json_data ;; inr (Some d),
               log ++ [request api_key address PARCEL])
          end
        end
    end.
Proof.
  unfold lookup, bind, requests_get, rbind. fold PARCEL.
  destruct (remote log _) as [e|[code [e|json_data]]]; cbn [status_code json_body];
    try reflexivity.
  - destruct (negb (code =? 200)); reflexivity.
  - destruct (negb (code =? 200)); [reflexivity|]. cbn.
    destruct (status_of json_data) as [e|status]; cbn; try reflexivity.
    destruct (negb (str_eq status (py "OK"))); [reflexivity|].
    destruct (point_result json_data); reflexivity.
Qed.

Lemma str_eq_same s : str_eq (JVal (VStr s)) s = true.
Proof. unfold str_eq. by apply bool_decide_eq_true_2. Qed.

Lemma str_eq_other s t : s <> t -> str_eq (JVal (VStr s)) t = false.
Proof. intros Hne. unfold str_eq. by apply bool_decide_eq_false_2. Qed.

Lemma str_eq_true v s : str_eq v s = true -> v = JVal (VStr s).
Proof.
  destruct v as [[| | | |t]| |]; cbn; try discriminate.
  intros H. apply bool_decide_eq_true_1 in H. by subst.
Qed.

Lemma calls_app {A : Type} (m : M A) log issued :
  (m log).2 = log ++ issued -> calls m log = length issued.
Proof. intros H. unfold calls. rewrite H, length_app. lia. Qed.

(** A reply [OK] with a point at the first attempt: one request, and the
    latitude is the point's [y], the longitude its [x]. *)
Lemma parcel_found remote address api_key log body x y :
  remote log (request api_key address PARCEL)
    = inr {| status_code := 200; json_body := inr body |} ->
  has_status body (py "OK") ->
  has_point body (point_xy x y) ->
  geocoding_latlong remote address api_key log
    = (inr (Resolved y x), log ++ [request api_key address PARCEL]).
Proof.
  intros Hnet Hst Hpt.
  rewrite geocoding_latlong_eq, lookup_eq, Hnet. cbn [status_code json_body negb Z.eqb Pos.eqb].
  rewrite (status_of_has_status _ _ Hst), str_eq_same. cbn [negb].
  by rewrite (point_result_has_point _ _ _ Hpt).
Qed.

(** A reply other than [OK] at the first attempt: the second request is
    issued, and its body alone decides the outcome. *)
Lemma parcel_not_ok remote address api_key log body status :
  remote log (request api_key address PARCEL)
    = inr {| status_code := 200; json_body := inr body |} ->
  status_of body = inr status ->
  str_eq status (py "OK") = false ->
  geocoding_latlong remote address api_key log
    = (inr (closing (response <~ remote (log ++ [request api_key address PARCEL])
                                        (request api_key address ROAD) ;;
                     road_reading (json_body response))),
       log ++ [request api_key address PARCEL; request api_key address ROAD]).
Proof.
  intros Hnet Hst Hne.
  rewrite geocoding_latlong_eq, lookup_eq, Hnet. cbn [status_code json_body negb Z.eqb Pos.eqb].
  rewrite Hst, Hne. cbn [negb]. rewrite road_lookup_eq. cbn [fst snd].
  by rewrite <- app_assoc.
Qed.

Lemma not_found_is_not_ok : str_eq (JVal (VStr (py "NOT_FOUND"))) (py "OK") = false.
Proof. reflexivity. Qed.

(** C3: when the PARCEL query answers HTTP 200 with service status OK and the
    point {x: 127.0, y: 37.5}, [geocoding_latlong] returns the dictionary
    {lat: 37.5, lng: 127.0, found: True, level: exact} (latitude from [y],
    longitude from [x]), and the PARCEL request is the only one issued. *)
Theorem parcel_ok_resolves remote address api_key log body :
  remote log (request api_key address PARCEL)
    = inr {| status_code := 200; json_body := inr body |} ->
  has_status body (py "OK") ->
  has_point body (point_xy 127.0 37.5) ->
  geocoding_latlong remote address api_key log
    = (inr (Resolved 37.5 127.0), log ++ [request api_key address PARCEL])
  /\ calls (geocoding_latlong remote address api_key) log = 1%nat.
Proof.
  intros Hnet Hst Hpt.
  pose proof (parcel_found _ _ _ _ _ _ _ Hnet Hst Hpt) as Heq.
  split; [exact Heq|].
  rewrite (calls_app _ _ [request api_key address PARCEL]); [reflexivity|].
  by rewrite Heq.
Qed.

(** C4: when the PARCEL query answers HTTP 200 with status NOT_FOUND and the
    ROAD query answers status OK with the point {x: 127.1, y: 37.6},
    [geocoding_latlong] returns {lat: 37.6, lng: 127.1, found: True,
    level: exact} after exactly two requests, PARCEL then ROAD. *)
Theorem road_ok_resolves remote address api_key log body1 code2 body2 :
  remote log (request api_key address PARCEL)
    = inr {| status_code := 200; json_body := inr body1 |} ->
  has_status body1 (py "NOT_FOUND") ->
  remote (log ++ [request api_key address PARCEL]) (request api_key address ROAD)
    = inr {| status_code := code2; json_body := inr body2 |} ->
  has_status body2 (py "OK") ->
  has_point body2 (point_xy 127.1 37.6) ->
  geocoding_latlong remote address api_key log
    = (inr (Resolved 37.6 127.1),
       log ++ [request api_key address PARCEL; request api_key address ROAD])
  /\ calls (geocoding_latlong remote address api_key) log = 2%nat.
Proof.
  intros Hnet1 Hst1 Hnet2 Hst2 Hpt2.
  assert (geocoding_latlong remote address api_key log
          = (inr (Resolved 37.6 127.1),
             log ++ [request api_key address PARCEL; request api_key address ROAD]))
    as Heq.
  { rewrite (parcel_not_ok _ _ _ _ _ _ Hnet1 (status_of_has_status _ _ Hst1)
               not_found_is_not_ok).
    rewrite Hnet2. cbn [rbind json_body road_reading].
    rewrite (status_of_has_status _ _ Hst2). cbn [rbind].
    by rewrite str_eq_same, (point_result_has_point _ _ _ Hpt2). }
  split; [exact Heq|].
  rewrite (calls_app _ _ [request api_key address PARCEL; request api_key address ROAD]);
    [reflexivity|].
  by rewrite Heq.
Qed.

Lemma point_result_shape body d :
  point_result body = inr d -> exists lat lng, d = Resolved lat lng.
Proof.
  unfold point_result, rbind. intros H.
  repeat case_match; try discriminate. injection H as <-. eauto.
Qed.

Lemma road_reading_shape body d :
  road_reading body = inr (Some d) -> exists lat lng, d = Resolved lat lng.
Proof.
  unfold road_reading, rbind. intros H.
  repeat case_match; try discriminate.
  injection H as <-. eauto using point_result_shape.
Qed.

Lemma closing_lookup_outcome remote address api_key log :
  LookupOutcome (closing (lookup remote address api_key log).1).
Proof.
  rewrite lookup_eq.
  destruct (remote log _) as [e|[code [e|json_data]]]; cbn [status_code json_body].
  1: right; eauto.
  1,2: destruct (negb (code =? 200)); cbn; [right; eauto| ]; try (right; by eauto).
  destruct (status_of json_data) as [e|status]; [right; by eauto|].
  destruct (negb (str_eq status (py "OK"))).
  - rewrite road_lookup_eq. cbn [fst].
    destruct (remote _ _) as [e|response]; cbn [rbind]; [right; by eauto|].
    destruct (road_reading (json_body response)) as [e|[d|]] eqn:Hr; cbn;
      [right; by eauto | left; by eapply road_reading_shape | right; by eauto].
  - cbn [fst]. destruct (point_result json_data) as [e|d] eqn:Hp; cbn;
      [right; by eauto | left; by eapply point_result_shape].
Qed.

(** The requests of one lookup: PARCEL, then possibly ROAD. *)
Lemma requests_issued remote address api_key log :
  (geocoding_latlong remote address api_key log).2
    = log ++ [request api_key address PARCEL]
  \/ (geocoding_latlong remote address api_key log).2
    = log ++ [request api_key address PARCEL; request api_key address ROAD].
Proof.
  rewrite geocoding_latlong_eq, lookup_eq. cbn [snd].
  destruct (remote log _) as [e|[code [e|json_data]]]; cbn [status_code json_body];
    [by left | destruct (negb (code =? 200)); by left | ].
  destruct (negb (code =? 200)); [by left|].
  destruct (status_of json_data) as [e|status]; [by left|].
  destruct (negb (str_eq status (py "OK"))); [|by left].
  right. rewrite road_lookup_eq. cbn [snd]. by rewrite <- app_assoc.
Qed.


(** The exceptions of the network call itself, at either attempt. *)
Lemma parcel_request_raises remote address api_key log e :
  remote log (request api_key address PARCEL) = inl e ->
  geocoding_latlong remote address api_key log
    = (inr (Unresolved (py "시스템 에러: " ++ exc_str e)),
       log ++ [request api_key address PARCEL]).
Proof.
  intros Hnet. by rewrite geocoding_latlong_eq, lookup_eq, Hnet.
Qed.

Lemma road_request_raises remote address api_key log body status e :
  remote log (request api_key address PARCEL)
    = inr {| status_code := 200; json_body := inr body |} ->
  status_of body = inr status ->
  str_eq status (py "OK") = false ->
  remote (log ++ [request api_key address PARCEL]) (request api_key address ROAD) = inl e ->
  geocoding_latlong remote address api_key log
    = (inr (Unresolved (py "시스템 에러: " ++ exc_str e)),
       log ++ [request api_key address PARCEL; request api_key address ROAD]).
Proof.
  intros Hnet Hst Hne Hnet2.
  by rewrite (parcel_not_ok _ _ _ _ _ _ Hnet Hst Hne), Hnet2.
Qed.

(** C8: one call of [geocoding_latlong] issues at most two requests, and
    exactly one when the PARCEL reply has a status code other than 200 or is
    HTTP 200 with service status OK. *)
Theorem at_most_two_requests remote address api_key log :
  (calls (geocoding_latlong remote address api_key) log <= 2)%nat
  /\ (forall response,
        remote log (request api_key address PARCEL) = inr response ->
        status_code response <> 200
        \/ (status_code response = 200
            /\ exists body, json_body response = inr body /\ has_status body (py "OK")) ->
        calls (geocoding_latlong remote address api_key) log = 1%nat).
Proof.
  split.
  - destruct (requests_issued remote address api_key log) as [H|H];
      [rewrite (calls_app _ _ _ H) | rewrite (calls_app _ _ _ H)]; cbn; lia.
  - intros [code body] Hnet Hcase.
    rewrite (calls_app _ _ [request api_key address PARCEL]); [reflexivity|].
    rewrite geocoding_latlong_eq, lookup_eq, Hnet. cbn [status_code json_body snd] in *.
    destruct Hcase as [Hne|(-> & json_data & -> & Hst)].
    + apply Z.eqb_neq in Hne. by rewrite Hne.
    + cbn [negb Z.eqb Pos.eqb].
      by rewrite (status_of_has_status _ _ Hst), str_eq_same.
Qed.

(** The status code of a ROAD reply does not reach the outcome. *)
Lemma is_road_parcel api_key address : is_road (request api_key address PARCEL) = false.
Proof. reflexivity. Qed.

Lemma is_road_road api_key address : is_road (request api_key address ROAD) = true.
Proof. reflexivity. Qed.

Lemma lookup_with_road_status f remote address api_key log :
  lookup (with_road_status f remote) address api_key log
  = lookup remote address api_key log.
Proof.
  rewrite !lookup_eq. unfold with_road_status at 1. rewrite is_road_parcel.
  destruct (remote log _) as [e|[code [e|json_data]]]; cbn [status_code json_body];
    try reflexivity.
  destruct (negb (code =? 200)); [reflexivity|].
  destruct (status_of json_data) as [e|status]; [reflexivity|].
  destruct (negb (str_eq status (py "OK"))); [|reflexivity].
  rewrite !road_lookup_eq. unfold with_road_status. rewrite is_road_road.
  by destruct (remote _ _) as [e|[code2 body2]].
Qed.

Lemma road_status_ignored f remote address api_key log :
  geocoding_latlong (with_road_status f remote) address api_key log
  = geocoding_latlong remote address api_key log.
Proof. by rewrite !geocoding_latlong_eq, lookup_with_road_status. Qed.

End Resolver_facts.

Section Checkpoint_facts.
Context {rt : Runtime}.
Implicit Types (remote : Remote) (address api_key : pystr) (log : list Request).

Lemma ckpt_geocoding_latlong_eq remote address api_key log :
  Checkpoint.geocoding_latlong remote address api_key log
  = (inr (ckpt_closing (Checkpoint.lookup remote address api_key log).1),
     (Checkpoint.lookup remote address api_key log).2).
Proof.
  unfold Checkpoint.geocoding_latlong, try_except, bind, ret.
  destruct (Checkpoint.lookup remote address api_key log) as [[e|[d|]] log']; reflexivity.
Qed.

Lemma ckpt_road_lookup_eq remote address api_key log :
  Checkpoint.road_lookup remote address api_key log
  = (response <~ remote log (Checkpoint.request api_key address ROAD) ;;
     ckpt_road_reading (json_body response),
     log ++ [Checkpoint.request api_key address ROAD]).
Proof.
  unfold Checkpoint.road_lookup, ckpt_road_reading, bind, requests_get, rbind. fold ROAD.
  destruct (remote log _) as [e|[code [e|data]]]; cbn; try reflexivity.
  destruct (status_of data) as [e|status]; cbn; try reflexivity.
  destruct (str_eq status (py "OK")); cbn.
  - destruct (point_result data); reflexivity.
  - destruct (negb (str_eq status (py "NOT_FOUND"))); cbn; [|reflexivity].
    destruct (Checkpoint.api_error data status); reflexivity.
Qed.

Lemma ckpt_lookup_eq remote address api_key log :
  Checkpoint.lookup remote address api_key log
  = match remote log (Checkpoint.request api_key address PARCEL) with
    | inl e => (inl e, log ++ [Checkpoint.request api_key address PARCEL])
    | inr response =>
      if negb (status_code response =? 200) then
        (inr (Some (Unresolved
           (py "HTTP 접속 오류 (" ++ str_of_int (status_code response) ++ py ")"))),
         log ++ [Checkpoint.request api_key address PARCEL])
      else
        match json_body response with
        | inl e => (inl e, log ++ [Checkpoint.request api_key address PARCEL])
        | inr data =>
          match status_of data with
          | inl e => (inl e, log ++ [Checkpoint.request api_key address PARCEL])
          | inr status =>
            if str_eq status (py "OK") then
              (d <~ point_result data ;; inr (Some d),
               log ++ [Checkpoint.request api_key address PARCEL])
            else if str_eq status (py "NOT_FOUND") then
              Checkpoint.road_lookup remote address api_key
                (log ++ [Checkpoint.request api_key address PARCEL])
            else
              (d <~ Checkpoint.api_error data status ;; inr (Some d),
               log ++ [Checkpoint.request api_key address PARCEL])
          end
        end
    end.
Proof.
  unfold Checkpoint.lookup, bind, requests_get, rbind. fold PARCEL.
  destruct (remote log _) as [e|[code [e|data]]]; cbn [status_code json_body];
    try reflexivity.
  - destruct (negb (code =? 200)); reflexivity.
  - destruct (negb (code =? 200)); [reflexivity|]. cbn.
    destruct (status_of data) as [e|status]; cbn; try reflexivity.
    destruct (str_eq status (py "OK")).
    + destruct (point_result data); reflexivity.
    + destruct (str_eq status (py "NOT_FOUND")); [reflexivity|].
      destruct (Checkpoint.api_error data status); reflexivity.
Qed.

Lemma getitem_object v key x : getitem v key = inr x -> exists fields, v = JObj fields.
Proof. destruct v; cbn; try discriminate. eauto. Qed.

(** X10: the checkpoint file stops at a service status that is neither OK
    nor NOT_FOUND: one request, and the error is "API 에러: status (text)"
    with the text of the reply's response.text, or nothing between the
    brackets when the reply has none. *)
Lemma ckpt_service_error_is_terminal remote address api_key log body status :
  remote log (Checkpoint.request api_key address PARCEL)
    = inr {| status_code := 200; json_body := inr body |} ->
  has_status body status ->
  status <> py "OK" ->
  status <> py "NOT_FOUND" ->
  exists fields,
    getitem body (py "response") = inr (JObj fields)
    /\ Checkpoint.geocoding_latlong remote address api_key log
       = (inr (Unresolved
                 (py "API 에러: " ++ status ++ py " ("
                  ++ json_str (default (JVal (VStr [])) (assoc (py "text") fields))
                  ++ py ")")),
          log ++ [Checkpoint.request api_key address PARCEL]).
Proof.
  intros Hnet Hst Hok Hnf.
  rewrite ckpt_geocoding_latlong_eq, ckpt_lookup_eq, Hnet.
  cbn [status_code json_body negb Z.eqb Pos.eqb].
  rewrite (status_of_has_status _ _ Hst), !str_eq_other by done.
  destruct Hst as (r & Hr & Hs).
  destruct (getitem_object _ _ _ Hs) as [fields ->].
  exists fields. split; [exact Hr|].
  unfold Checkpoint.api_error, rbind. rewrite Hr. reflexivity.
Qed.

Lemma ckpt_is_road_parcel api_key address :
  is_road (Checkpoint.request api_key address PARCEL) = false.
Proof. reflexivity. Qed.

Lemma ckpt_is_road_road api_key address :
  is_road (Checkpoint.request api_key address ROAD) = true.
Proof. reflexivity. Qed.

Lemma ckpt_lookup_with_road_status f remote address api_key log :
  Checkpoint.lookup (with_road_status f remote) address api_key log
  = Checkpoint.lookup remote address api_key log.
Proof.
  rewrite !ckpt_lookup_eq. unfold with_road_status at 1. rewrite ckpt_is_road_parcel.
  destruct (remote log _) as [e|[code [e|data]]]; cbn [status_code json_body];
    try reflexivity.
  destruct (negb (code =? 200)); [reflexivity|].
  destruct (status_of data) as [e|status]; [reflexivity|].
  destruct (str_eq status (py "OK")); [reflexivity|].
  destruct (str_eq status (py "NOT_FOUND")); [|reflexivity].
  rewrite !ckpt_road_lookup_eq. unfold with_road_status. rewrite ckpt_is_road_road.
  by destruct (remote _ _) as [e|[code2 body2]].
Qed.

Lemma ckpt_road_status_ignored f remote address api_key log :
  Checkpoint.geocoding_latlong (with_road_status f remote) address api_key log
  = Checkpoint.geocoding_latlong remote address api_key log.
Proof. by rewrite !ckpt_geocoding_latlong_eq, ckpt_lookup_with_road_status. Qed.

Lemma ckpt_parcel_not_found remote address api_key log body :
  remote log (Checkpoint.request api_key address PARCEL)
    = inr {| status_code := 200; json_body := inr body |} ->
  has_status body (py "NOT_FOUND") ->
  Checkpoint.geocoding_latlong remote address api_key log
    = (inr (ckpt_closing
              (response <~ remote (log ++ [Checkpoint.request api_key address PARCEL])
                                  (Checkpoint.request api_key address ROAD) ;;
               ckpt_road_reading (json_body response))),
       log ++ [Checkpoint.request api_key address PARCEL;
               Checkpoint.request api_key address ROAD]).
Proof.
  intros Hnet Hst.
  rewrite ckpt_geocoding_latlong_eq, ckpt_lookup_eq, Hnet.
  cbn [status_code json_body negb Z.eqb Pos.eqb].
  rewrite (status_of_has_status _ _ Hst), str_eq_other, str_eq_same by done.
  rewrite ckpt_road_lookup_eq. cbn [fst snd]. by rewrite <- app_assoc.
Qed.

End Checkpoint_facts.

(** C1 (not so in src/geocoding.py): the PARCEL query answers HTTP 200 with
    the credential status INVALID_KEY. The specification asks for a failure
    that carries the service error after one request and no ROAD request;
    src/geocoding.py issues the ROAD request as well and returns the generic
    failure "결과 없음 (V-World 응답 확인 필요)", although its comment on line 46
    says the message is checked when the status is not OK. *)
Example credential_error_falls_through :
  let remote := always 200 (status_reply (py "INVALID_KEY")) in
  let address := py "서울특별시 중구 세종대로 110" in
  let api_key := py "bad-key" in
  @Geocoding.geocoding_latlong plain_runtime remote address api_key []
  = (inr (Unresolved (py "결과 없음 (V-World 응답 확인 필요)")),
     [Geocoding.request api_key address PARCEL; Geocoding.request api_key address ROAD]).
Proof. vm_compute. reflexivity. Qed.

(** The same input in the checkpoint file: one request, and the failure
    carries the status. *)
Example ckpt_credential_error_fails_fast :
  let remote := always 200 (status_reply (py "INVALID_KEY")) in
  let address := py "서울특별시 중구 세종대로 110" in
  let api_key := py "bad-key" in
  @Checkpoint.geocoding_latlong plain_runtime remote address api_key []
  = (inr (Unresolved (py "API 에러: INVALID_KEY ()")),
     [Checkpoint.request api_key address PARCEL]).
Proof. vm_compute. reflexivity. Qed.

(** C10: the status code of the ROAD reply is never inspected, in either
    file: rewriting the status codes of all ROAD replies changes neither the
    outcome nor the requests issued; and once the PARCEL reply (HTTP 200)
    leads to the second attempt, the outcome is read off the parsed body of
    the ROAD reply alone, whatever its status code, a failure of
    [response.json()] becoming the "시스템 에러" outcome. *)
Theorem road_status_code_never_inspected :
  (forall (rt : Runtime) f remote address api_key log,
     Geocoding.geocoding_latlong (with_road_status f remote) address api_key log
     = Geocoding.geocoding_latlong remote address api_key log)
  /\ (forall (rt : Runtime) f remote address api_key log,
     Checkpoint.geocoding_latlong (with_road_status f remote) address api_key log
     = Checkpoint.geocoding_latlong remote address api_key log)
  /\ (forall (rt : Runtime) remote address api_key log body status response2,
     remote log (Geocoding.request api_key address PARCEL)
       = inr {| status_code := 200; json_body := inr body |} ->
     status_of body = inr status ->
     str_eq status (py "OK") = false ->
     remote (log ++ [Geocoding.request api_key address PARCEL])
            (Geocoding.request api_key address ROAD) = inr response2 ->
     Geocoding.geocoding_latlong remote address api_key log
     = (inr (closing (road_reading (json_body response2))),
        log ++ [Geocoding.request api_key address PARCEL;
                Geocoding.request api_key address ROAD]))
  /\ (forall (rt : Runtime) remote address api_key log body response2,
     remote log (Checkpoint.request api_key address PARCEL)
       = inr {| status_code := 200; json_body := inr body |} ->
     has_status body (py "NOT_FOUND") ->
     remote (log ++ [Checkpoint.request api_key address PARCEL])
            (Checkpoint.request api_key address ROAD) = inr response2 ->
     Checkpoint.geocoding_latlong remote address api_key log
     = (inr (ckpt_closing (ckpt_road_reading (json_body response2))),
        log ++ [Checkpoint.request api_key address PARCEL;
                Checkpoint.request api_key address ROAD])).
Proof.
  split; [intros; apply road_status_ignored|].
  split; [intros; apply ckpt_road_status_ignored|].
  split.
  - intros rt remote address api_key log body status response2 Hnet Hst Hne Hnet2.
    by rewrite (parcel_not_ok _ _ _ _ _ _ Hnet Hst Hne), Hnet2.
  - intros rt remote address api_key log body response2 Hnet Hst Hnet2.
    by rewrite (ckpt_parcel_not_found _ _ _ _ _ Hnet Hst), Hnet2.
Qed.

Section Row_facts.
Context {rt : Runtime}.
Implicit Types (remote : Remote) (address api_key addr_col : pystr) (log : list Request).
Implicit Types (row : gmap pystr value).

Import Geocoding.

(** [str.strip()] leaves nothing exactly when every character is white. *)
Lemma lstrip_white s : forallb isspace (lstrip s) = forallb isspace s.
Proof.
  induction s as [|c s IH]; [done|]. cbn.
  destruct (isspace c) eqn:Hc; [done|]. cbn. by rewrite Hc.
Qed.

Lemma lstrip_nil s : lstrip s = [] <-> forallb isspace s = true.
Proof.
  induction s as [|c s IH]; [done|]. cbn.
  destruct (isspace c); [done|]. split; discriminate.
Qed.

Lemma forallb_reverse (f : N -> bool) s : forallb f (reverse s) = forallb f s.
Proof.
  induction s as [|c s IH]; [done|].
  rewrite reverse_cons, forallb_app. cbn. rewrite IH. destruct (f c), (forallb f s); done.
Qed.

Lemma rstrip_nil s : rstrip s = [] <-> forallb isspace s = true.
Proof.
  unfold rstrip. rewrite <- (forallb_reverse isspace s), <- lstrip_nil.
  split; intros H; [|by rewrite H].
  by rewrite <- (reverse_involutive (lstrip (reverse s))), H.
Qed.

Lemma strip_nil s : strip s = [] <-> forallb isspace s = true.
Proof. unfold strip. by rewrite rstrip_nil, lstrip_white. Qed.

Lemma no_address_test addr :
  no_address addr -> isna addr || bool_decide (strip (py_str addr) = []) = true.
Proof.
  intros [->|[(f & -> & Hf)|(s & -> & Hs)]]; cbn; [done|by rewrite Hf|].
  apply strip_nil in Hs. by rewrite bool_decide_eq_true_2.
Qed.

Lemma Unresolved_found reason : Unresolved reason !! py "found" = Some (VBool false).
Proof. reflexivity. Qed.

Lemma Unresolved_error reason : Unresolved reason !! py "error" = Some (VStr reason).
Proof. reflexivity. Qed.

(** C2: when the address cell of a row is null or a blank string,
    [process_row] takes the outcome {found: False, error: "빈 값"} (the
    source's wording of "no value supplied") without calling
    [geocoding_latlong]: the merged row has found = False and that error, and
    the log of requests is the one it started with. *)
Theorem blank_address_skips_lookup remote row addr_col api_key log addr :
  row !! addr_col = Some addr ->
  no_address addr ->
  row_outcome remote addr api_key log = (inr (Unresolved (py "빈 값")), log)
  /\ process_row remote row addr_col api_key log
     = (inr (Unresolved (py "빈 값") ∪ row), log)
  /\ (Unresolved (py "빈 값") ∪ row) !! py "found" = Some (VBool false)
  /\ (Unresolved (py "빈 값") ∪ row) !! py "error" = Some (VStr (py "빈 값"))
  /\ calls (process_row remote row addr_col api_key) log = 0%nat.
Proof.
  intros Hrow Hblank.
  assert (row_outcome remote addr api_key log = (inr (Unresolved (py "빈 값")), log)) as Hout.
  { unfold row_outcome. by rewrite (no_address_test _ Hblank). }
  assert (process_row remote row addr_col api_key log
          = (inr (Unresolved (py "빈 값") ∪ row), log)) as Hproc.
  { unfold process_row, bind, dict_item. rewrite Hrow. cbn [lift ret]. by rewrite Hout. }
  split; [exact Hout|]. split; [exact Hproc|].
  split; [by apply lookup_union_Some_l, Unresolved_found|].
  split; [by apply lookup_union_Some_l, Unresolved_error|].
  unfold calls. rewrite Hproc. cbn [snd]. lia.
Qed.

(** A call of [geocoding_latlong] always shows in the log. *)
Lemma geocoding_latlong_issues_a_request remote address api_key log :
  (1 <= calls (geocoding_latlong remote address api_key) log)%nat.
Proof.
  destruct (requests_issued remote address api_key log) as [H|H];
    rewrite (calls_app _ _ _ H); cbn; lia.
Qed.

End Row_facts.

Section Orchestrator_facts.
Context {rt : Runtime}.
Implicit Types (remote : Remote) (address api_key addr_col : pystr) (log : list Request).
Implicit Types (row res rr : gmap pystr value).

Import Geocoding.

Lemma Resolved_found lat lng : Resolved lat lng !! py "found" = Some (VBool true).
Proof. reflexivity. Qed.

Lemma Resolved_lat lat lng : Resolved lat lng !! py "lat" = Some (VFloat lat).
Proof. reflexivity. Qed.

Lemma Resolved_lng lat lng : Resolved lat lng !! py "lng" = Some (VFloat lng).
Proof. reflexivity. Qed.

Lemma Resolved_other lat lng k :
  k <> py "lat" -> k <> py "lng" -> k <> py "found" -> k <> py "level" ->
  Resolved lat lng !! k = None.
Proof.
  intros. unfold Resolved. rewrite !lookup_insert_ne by done. apply lookup_empty.
Qed.

Lemma Unresolved_other reason k :
  k <> py "found" -> k <> py "error" -> Unresolved reason !! k = None.
Proof.
  intros. unfold Unresolved. rewrite !lookup_insert_ne by done. apply lookup_empty.
Qed.

(** [process_row] never raises on a row that has the address column, and
    merges the row with the outcome of its own cell. *)
Lemma row_outcome_ok remote addr api_key log :
  exists res log',
    row_outcome remote addr api_key log = (inr res, log') /\ LookupOutcome res.
Proof.
  unfold row_outcome.
  destruct (isna addr || bool_decide (strip (py_str addr) = [])).
  - eexists _, _. split; [reflexivity|]. right. eauto.
  - eexists _, _. split; [apply geocoding_latlong_eq|]. apply closing_lookup_outcome.
Qed.

Lemma process_row_ok remote row addr_col api_key log addr :
  row !! addr_col = Some addr ->
  exists res log',
    row_outcome remote addr api_key log = (inr res, log')
    /\ LookupOutcome res
    /\ process_row remote row addr_col api_key log = (inr (res ∪ row), log').
Proof.
  intros Hrow.
  destruct (row_outcome_ok remote addr api_key log) as (res & log' & Hout & Hres).
  exists res, log'. split; [done|]. split; [done|].
  unfold process_row, bind, dict_item. rewrite Hrow. cbn [lift ret]. by rewrite Hout.
Qed.

(** The TM step on the two kinds of merged row. *)
Lemma with_tm_resolved lat lng row :
  with_tm (Resolved lat lng ∪ row)
  = inr (<[py "TMY" := VFloat (convert_tm lat lng).2]>
          (<[py "TMX" := VFloat (convert_tm lat lng).1]> (Resolved lat lng ∪ row))).
Proof.
  unfold with_tm, dict_item.
  rewrite (lookup_union_Some_l _ _ _ _ (Resolved_found lat lng)),
          (lookup_union_Some_l _ _ _ _ (Resolved_lat lat lng)),
          (lookup_union_Some_l _ _ _ _ (Resolved_lng lat lng)).
  cbn. by destruct (convert_tm lat lng).
Qed.

Lemma with_tm_unresolved reason row :
  with_tm (Unresolved reason ∪ row) = inr (Unresolved reason ∪ row).
Proof.
  unfold with_tm.
  by rewrite (lookup_union_Some_l _ _ _ _ (Unresolved_found reason)).
Qed.

Lemma with_tm_ok res row :
  LookupOutcome res -> exists rr, with_tm (res ∪ row) = inr rr.
Proof.
  intros [(lat & lng & ->)|(reason & ->)];
    [rewrite with_tm_resolved | rewrite with_tm_unresolved]; eauto.
Qed.

(** The merged row keeps every field of the origin row outside the result
    columns. *)
Lemma with_tm_keeps_fields res row rr k :
  LookupOutcome res ->
  with_tm (res ∪ row) = inr rr ->
  k ∉ result_columns ->
  rr !! k = row !! k.
Proof.
  intros Hres Htm Hk. unfold result_columns in Hk.
  rewrite !not_elem_of_cons in Hk. destruct Hk as (?&?&?&?&?&?&?&_).
  destruct Hres as [(lat & lng & ->)|(reason & ->)].
  - rewrite with_tm_resolved in Htm. injection Htm as <-.
    rewrite !lookup_insert_ne by done.
    by rewrite lookup_union_r by (by apply Resolved_other).
  - rewrite with_tm_unresolved in Htm. injection Htm as <-.
    by rewrite lookup_union_r by (by apply Unresolved_other).
Qed.

(** [convert_tm] asks pyproj for EPSG:4326 to EPSG:5186 on (lat, lng) and
    swaps the pair it gets. *)
Lemma convert_tm_axes lat lng :
  convert_tm lat lng
  = ((transform (py "EPSG:4326") (py "EPSG:5186") lat lng).2,
     (transform (py "EPSG:4326") (py "EPSG:5186") lat lng).1).
Proof. unfold convert_tm. by destruct (transform _ _ lat lng). Qed.

(** Every task submitted for a table whose rows have the address column
    finishes with a row to append. *)
Lemma appended_row_submitted services df addr_col api_key future :
  Forall (fun row => is_Some (row !! addr_col)) df ->
  future ∈ submit_all services df addr_col api_key ->
  exists rr, appended_row future = inr rr.
Proof.
  intros Hdf Hin. unfold submit_all in Hin.
  apply list_elem_of_lookup in Hin as [i Hi].
  rewrite list_lookup_imap in Hi.
  destruct (df !! i) as [row|] eqn:Hrow; [|discriminate].
  injection Hi as <-.
  pose proof (proj1 (Forall_lookup _ _) Hdf i row Hrow) as [addr Haddr].
  destruct (process_row_ok (services i) row addr_col api_key [] addr Haddr)
    as (res & log' & _ & Hres & Hproc).
  unfold appended_row. cbn [future_result]. rewrite Hproc. cbn [fst rbind].
  by apply with_tm_ok.
Qed.

(** The loop appends one row per finished task, in the order of completion,
    and counts them. *)
Lemma collect_appends completed : forall st,
  Forall (fun future => exists rr, appended_row future = inr rr) completed ->
  collect st completed
  = inr (st.1 ++ omap row_of completed, (st.2 + length completed)%nat).
Proof.
  induction completed as [|future rest IH]; intros [results n] Hall.
  - cbn. by rewrite app_nil_r, Nat.add_0_r.
  - apply Forall_cons in Hall as [[rr Hrr] Hrest].
    assert (collect_step (results, n) future = inr (results ++ [rr], S n)) as Hstep.
    { unfold collect_step. unfold appended_row in Hrr.
      destruct (future_result future) as [e|row_result]; [discriminate|].
      cbn [rbind] in Hrr |- *. by rewrite Hrr. }
    cbn [collect omap list_omap]. unfold row_of at 1. rewrite Hstep, Hrr. cbn [rbind].
    rewrite IH by done. cbn [fst snd length].
    by rewrite <- app_assoc, Nat.add_succ_r.
Qed.

Lemma omap_row_of_length futures :
  Forall (fun future => exists rr, appended_row future = inr rr) futures ->
  length (omap row_of futures) = length futures.
Proof.
  induction 1 as [|future rest [rr Hrr] _ IH]; [done|].
  cbn [omap list_omap]. unfold row_of at 1. rewrite Hrr. cbn. by rewrite IH.
Qed.

(** Row [i] of the table gives entry [i] of the rows appended for the tasks
    in submission order: the row merged with the outcome of its own cell. *)
Lemma submitted_row_merged_from services addr_col api_key df : forall n i row,
  Forall (fun row => is_Some (row !! addr_col)) df ->
  df !! i = Some row ->
  exists addr res rr,
    row !! addr_col = Some addr
    /\ (row_outcome (services (n + i)%nat) addr api_key []).1 = inr res
    /\ with_tm (res ∪ row) = inr rr
    /\ omap row_of
         (imap (fun i row =>
                  {| future_index := (n + i)%nat;
                     future_result :=
                       (process_row (services (n + i)%nat) row addr_col api_key []).1 |})
               df) !! i = Some rr
    /\ (forall k, k ∉ result_columns -> rr !! k = row !! k).
Proof.
  induction df as [|row0 df IH]; intros n i row Hdf Hi; [done|].
  apply Forall_cons in Hdf as [[addr0 Haddr0] Hdf].
  rewrite imap_cons. cbn [omap list_omap].
  destruct (process_row_ok (services (n + 0)%nat) row0 addr_col api_key [] addr0 Haddr0)
    as (res0 & log0 & Hout0 & Hres0 & Hproc0).
  destruct (with_tm_ok res0 row0 Hres0) as [rr0 Hrr0].
  unfold row_of at 1, appended_row. cbn [future_result].
  rewrite Hproc0. cbn [fst rbind]. rewrite Hrr0.
  destruct i as [|i].
  - injection Hi as <-. exists addr0, res0, rr0.
    rewrite Hout0. repeat split; try done.
    intros k Hk. by eapply with_tm_keeps_fields.
  - destruct (IH (S n) i row Hdf Hi) as (addr & res & rr & Ha & Hout & Htm & Hl & Hk).
    exists addr, res, rr. rewrite Nat.add_succ_r.
    split; [exact Ha|]. split; [exact Hout|]. split; [exact Htm|]. split; [|exact Hk].
    rewrite <- Hl. change ((rr0 :: ?l) !! S i) with (l !! i).
    f_equal. f_equal.
    apply imap_ext. intros j x _. cbn. by rewrite Nat.add_succ_r.
Qed.

Lemma submitted_row_merged services addr_col api_key df i row :
  Forall (fun row => is_Some (row !! addr_col)) df ->
  df !! i = Some row ->
  exists addr res rr,
    row !! addr_col = Some addr
    /\ (row_outcome (services i) addr api_key []).1 = inr res
    /\ with_tm (res ∪ row) = inr rr
    /\ omap row_of (submit_all services df addr_col api_key) !! i = Some rr
    /\ (forall k, k ∉ result_columns -> rr !! k = row !! k).
Proof. apply (submitted_row_merged_from services addr_col api_key df 0). Qed.

(** C6: for a table of N rows whose rows have the address column, whatever
    the service answers to each row and in whatever order the tasks finish,
    the loop ends with N result rows and the count N; the result rows are,
    up to order, the rows obtained from row 0, row 1, ..., each one being
    the TM step applied to that row merged with the outcome of that row's
    own address cell, all other fields of the row kept. *)
Theorem every_row_appears_once services df addr_col api_key completed :
  Forall (fun row => is_Some (row !! addr_col)) df ->
  completed ≡ₚ submit_all services df addr_col api_key ->
  exists results merged,
    collect ([], 0%nat) completed = inr (results, length df)
    /\ length results = length df
    /\ results ≡ₚ merged
    /\ length merged = length df
    /\ forall i row, df !! i = Some row ->
         exists addr res rr,
           row !! addr_col = Some addr
           /\ (row_outcome (services i) addr api_key []).1 = inr res
           /\ with_tm (res ∪ row) = inr rr
           /\ merged !! i = Some rr
           /\ (forall k, k ∉ result_columns -> rr !! k = row !! k).
Proof.
  intros Hdf Hperm.
  assert (Forall (fun future => exists rr, appended_row future = inr rr)
                 (submit_all services df addr_col api_key)) as Hall.
  { apply Forall_forall. intros future Hin. by eapply appended_row_submitted. }
  assert (Forall (fun future => exists rr, appended_row future = inr rr) completed)
    as Hall'.
  { by rewrite Hperm. }
  assert (length completed = length df) as Hlen.
  { rewrite Hperm. unfold submit_all. apply length_imap. }
  exists (omap row_of completed), (omap row_of (submit_all services df addr_col api_key)).
  split; [by rewrite collect_appends, Hlen|].
  split; [by rewrite omap_row_of_length|].
  split; [by rewrite Hperm|].
  split; [rewrite omap_row_of_length by done; unfold submit_all; apply length_imap|].
  intros i row Hi. by apply submitted_row_merged.
Qed.

Lemma result_column k :
  k ∈ result_columns ->
  k = py "found" \/ k = py "level" \/ k = py "error" \/ k = py "lat"
  \/ k = py "lng" \/ k = py "TMX" \/ k = py "TMY".
Proof.
  unfold result_columns. rewrite !elem_of_cons, elem_of_nil. tauto.
Qed.

Lemma resolved_row_fields lat lng row rr :
  (forall k, k ∈ result_columns -> row !! k = None) ->
  with_tm (Resolved lat lng ∪ row) = inr rr ->
  rr !! py "found" = Some (VBool true)
  /\ rr !! py "lat" = Some (VFloat lat)
  /\ rr !! py "lng" = Some (VFloat lng)
  /\ rr !! py "TMX" = Some (VFloat (convert_tm lat lng).1)
  /\ rr !! py "TMY" = Some (VFloat (convert_tm lat lng).2)
  /\ rr !! py "error" = None.
Proof.
  intros Hrow Htm. rewrite with_tm_resolved in Htm. injection Htm as <-.
  repeat split.
  - rewrite !lookup_insert_ne by py_ne. apply lookup_union_Some_l, Resolved_found.
  - rewrite !lookup_insert_ne by py_ne. apply lookup_union_Some_l, Resolved_lat.
  - rewrite !lookup_insert_ne by py_ne. apply lookup_union_Some_l, Resolved_lng.
  - rewrite lookup_insert_ne by py_ne. apply lookup_insert_eq.
  - apply lookup_insert_eq.
  - rewrite !lookup_insert_ne by py_ne.
    rewrite lookup_union_r by (apply Resolved_other; py_ne).
    apply Hrow. unfold result_columns. set_solver.
Qed.

Lemma unresolved_row_fields reason row rr :
  (forall k, k ∈ result_columns -> row !! k = None) ->
  with_tm (Unresolved reason ∪ row) = inr rr ->
  rr !! py "found" = Some (VBool false)
  /\ rr !! py "error" = Some (VStr reason)
  /\ rr !! py "lat" = None
  /\ rr !! py "lng" = None
  /\ rr !! py "TMX" = None
  /\ rr !! py "TMY" = None.
Proof.
  intros Hrow Htm. rewrite with_tm_unresolved in Htm. injection Htm as <-.
  split; [apply lookup_union_Some_l, Unresolved_found|].
  split; [apply lookup_union_Some_l, Unresolved_error|].
  repeat split;
    (rewrite lookup_union_r by (apply Unresolved_other; py_ne);
     apply Hrow; unfold result_columns; set_solver).
Qed.

(** C7: for a row whose columns are none of found, level, error, lat, lng,
    TMX, TMY, the row [process_row] returns, after the TM step of the loop,
    has a found field that is True or False; found = True exactly when lat,
    lng, TMX and TMY are all present and error is absent, and found = False
    exactly when error is present and lat, lng, TMX and TMY are all absent
    (present: the key is in the dictionary). *)
Theorem found_iff_coordinates remote row addr_col api_key log addr :
  row !! addr_col = Some addr ->
  (forall k, k ∈ result_columns -> row !! k = None) ->
  exists row_result rr,
    (process_row remote row addr_col api_key log).1 = inr row_result
    /\ with_tm row_result = inr rr
    /\ (rr !! py "found" = Some (VBool true) \/ rr !! py "found" = Some (VBool false))
    /\ (rr !! py "found" = Some (VBool true)
        <-> is_Some (rr !! py "lat") /\ is_Some (rr !! py "lng")
            /\ is_Some (rr !! py "TMX") /\ is_Some (rr !! py "TMY")
            /\ rr !! py "error" = None)
    /\ (rr !! py "found" = Some (VBool false)
        <-> is_Some (rr !! py "error")
            /\ rr !! py "lat" = None /\ rr !! py "lng" = None
            /\ rr !! py "TMX" = None /\ rr !! py "TMY" = None).
Proof.
  intros Haddr Hrow.
  destruct (process_row_ok remote row addr_col api_key log addr Haddr)
    as (res & log' & _ & Hres & Hproc).
  destruct (with_tm_ok res row Hres) as [rr Hrr].
  exists (res ∪ row), rr. rewrite Hproc. split; [done|]. split; [done|].
  destruct Hres as [(lat & lng & ->)|(reason & ->)].
  - destruct (resolved_row_fields _ _ _ _ Hrow Hrr) as (Hf & Hlat & Hlng & Hx & Hy & He).
    rewrite Hf, Hlat, Hlng, Hx, Hy, He. split; [by left|]. split.
    + split; [intros _; repeat split; eauto | done].
    + split; [discriminate | intros [[v Hv] _]; discriminate].
  - destruct (unresolved_row_fields _ _ _ Hrow Hrr) as (Hf & He & Hlat & Hlng & Hx & Hy).
    rewrite Hf, He, Hlat, Hlng, Hx, Hy. split; [by right|]. split.
    + split; [discriminate | intros [[v Hv] _]; discriminate].
    + split; [intros _; repeat split; eauto | done].
Qed.

End Orchestrator_facts.

(** ** The statements on concrete inputs *)

(** C3 on a service that answers OK with the point {x: 127.0, y: 37.5}. *)
Lemma parcel_ok_resolves_witness :
  let remote := always 200 (ok_reply 127.0 37.5) in
  let address := py "서울특별시 중구 세종대로 110" in
  let api_key := py "key" in
  has_status (ok_reply 127.0 37.5) (py "OK")
  /\ has_point (ok_reply 127.0 37.5) (point_xy 127.0 37.5)
  /\ @Geocoding.geocoding_latlong plain_runtime remote address api_key []
     = (inr (Resolved 37.5 127.0), [] ++ [Geocoding.request api_key address PARCEL])
  /\ calls (@Geocoding.geocoding_latlong plain_runtime remote address api_key) [] = 1%nat.
Proof.
  assert (has_status (ok_reply 127.0 37.5) (py "OK")) as Hst.
  { eexists. split; reflexivity. }
  assert (has_point (ok_reply 127.0 37.5) (point_xy 127.0 37.5)) as Hpt.
  { eexists _, _. repeat split; reflexivity. }
  split; [exact Hst|]. split; [exact Hpt|].
  apply (@parcel_ok_resolves plain_runtime (always 200 (ok_reply 127.0 37.5))
           (py "서울특별시 중구 세종대로 110") (py "key") [] (ok_reply 127.0 37.5));
    [reflexivity | exact Hst | exact Hpt].
Defined.

(** C4 on a service that answers NOT_FOUND first and then, with HTTP 503,
    OK with the point {x: 127.1, y: 37.6}. *)
Lemma road_ok_resolves_witness :
  let remote :=
    first_then {| status_code := 200; json_body := inr (status_reply (py "NOT_FOUND")) |}
               {| status_code := 503; json_body := inr (ok_reply 127.1 37.6) |} in
  let address := py "서울특별시 중구 세종대로 110" in
  let api_key := py "key" in
  has_status (status_reply (py "NOT_FOUND")) (py "NOT_FOUND")
  /\ has_status (ok_reply 127.1 37.6) (py "OK")
  /\ has_point (ok_reply 127.1 37.6) (point_xy 127.1 37.6)
  /\ @Geocoding.geocoding_latlong plain_runtime remote address api_key []
     = (inr (Resolved 37.6 127.1),
        [] ++ [Geocoding.request api_key address PARCEL;
               Geocoding.request api_key address ROAD])
  /\ calls (@Geocoding.geocoding_latlong plain_runtime remote address api_key) [] = 2%nat.
Proof.
  assert (has_status (status_reply (py "NOT_FOUND")) (py "NOT_FOUND")) as Hst1.
  { eexists. split; reflexivity. }
  assert (has_status (ok_reply 127.1 37.6) (py "OK")) as Hst2.
  { eexists. split; reflexivity. }
  assert (has_point (ok_reply 127.1 37.6) (point_xy 127.1 37.6)) as Hpt2.
  { eexists _, _. repeat split; reflexivity. }
  split; [exact Hst1|]. split; [exact Hst2|]. split; [exact Hpt2|].
  apply (@road_ok_resolves plain_runtime
           (first_then
              {| status_code := 200; json_body := inr (status_reply (py "NOT_FOUND")) |}
              {| status_code := 503; json_body := inr (ok_reply 127.1 37.6) |})
           (py "서울특별시 중구 세종대로 110") (py "key") []
           (status_reply (py "NOT_FOUND")) 503 (ok_reply 127.1 37.6));
    [reflexivity | exact Hst1 | reflexivity | exact Hst2 | exact Hpt2].
Defined.

(** C2 on the third row of the sample table, whose address is three blanks,
    with a service that would answer OK. *)
Lemma blank_address_skips_lookup_witness :
  let remote := always 200 (ok_reply 127.0 37.5) in
  let row : gmap pystr value :=
    <[py "주소" := VStr (py "   ")]> (<[py "id" := VInt 3]> ∅) in
  row !! py "주소" = Some (VStr (py "   "))
  /\ no_address (VStr (py "   "))
  /\ @Geocoding.process_row plain_runtime remote row (py "주소") (py "key") []
     = (inr (Unresolved (py "빈 값") ∪ row), [])
  /\ calls (@Geocoding.process_row plain_runtime remote row (py "주소") (py "key")) [] = 0%nat.
Proof.
  assert (no_address (VStr (py "   "))) as Hblank.
  { right. right. eexists. split; reflexivity. }
  assert ((<[py "주소" := VStr (py "   ")]> (<[py "id" := VInt 3]> ∅) : gmap pystr value)
            !! py "주소" = Some (VStr (py "   "))) as Hrow.
  { reflexivity. }
  split; [exact Hrow|]. split; [exact Hblank|].
  destruct (@blank_address_skips_lookup plain_runtime (always 200 (ok_reply 127.0 37.5))
              (<[py "주소" := VStr (py "   ")]> (<[py "id" := VInt 3]> ∅))
              (py "주소") (py "key") [] (VStr (py "   ")) Hrow Hblank)
    as (_ & Hproc & _ & _ & Hcalls).
  split; [exact Hproc | exact Hcalls].
Defined.

Lemma sample_table_has_address :
  Forall (fun row : gmap pystr value => is_Some (row !! py "주소")) sample_table.
Proof. repeat constructor; eexists; reflexivity. Qed.

(** C6 on the sample table, the tasks finishing in the reverse of the order
    of submission. *)
Lemma every_row_appears_once_witness :
  let services := fun _ : nat => always 200 (ok_reply 127.0 37.5) in
  let futures :=
    @Geocoding.submit_all plain_runtime services sample_table (py "주소") (py "key") in
  Forall (fun row : gmap pystr value => is_Some (row !! py "주소")) sample_table
  /\ reverse futures ≡ₚ futures
  /\ exists results,
       @Geocoding.collect plain_runtime ([], 0%nat) (reverse futures) = inr (results, 3%nat)
       /\ length results = 3%nat.
Proof.
  split; [exact sample_table_has_address|]. split; [apply reverse_Permutation|].
  destruct (@every_row_appears_once plain_runtime
              (fun _ : nat => always 200 (ok_reply 127.0 37.5)) sample_table
              (py "주소") (py "key")
              (reverse (@Geocoding.submit_all plain_runtime
                          (fun _ : nat => always 200 (ok_reply 127.0 37.5))
                          sample_table (py "주소") (py "key")))
              sample_table_has_address (reverse_Permutation _))
    as (results & merged & Hcollect & Hlen & _).
  exists results. split; [exact Hcollect | exact Hlen].
Defined.

Lemma sample_row_columns (k : pystr) :
  k ∈ result_columns ->
  (<[py "주소" := VStr (py "서울특별시 중구 세종대로 110")]> (<[py "id" := VInt 1]> ∅)
     : gmap pystr value) !! k = None.
Proof.
  intros Hk. apply result_column in Hk.
  destruct Hk as [->|[->|[->|[->|[->|[->| ->]]]]]]; reflexivity.
Qed.

(** C7 on the first row of the sample table, with a service that answers OK. *)
Lemma found_iff_coordinates_witness :
  let remote := always 200 (ok_reply 127.0 37.5) in
  let row : gmap pystr value :=
    <[py "주소" := VStr (py "서울특별시 중구 세종대로 110")]> (<[py "id" := VInt 1]> ∅) in
  row !! py "주소" = Some (VStr (py "서울특별시 중구 세종대로 110"))
  /\ (forall k, k ∈ result_columns -> row !! k = None)
  /\ exists row_result rr,
       (@Geocoding.process_row plain_runtime remote row (py "주소") (py "key") []).1
         = inr row_result
       /\ @Geocoding.with_tm plain_runtime row_result = inr rr
       /\ (rr !! py "found" = Some (VBool true) \/ rr !! py "found" = Some (VBool false))
       /\ (rr !! py "found" = Some (VBool true)
           <-> is_Some (rr !! py "lat") /\ is_Some (rr !! py "lng")
               /\ is_Some (rr !! py "TMX") /\ is_Some (rr !! py "TMY")
               /\ rr !! py "error" = None).
Proof.
  assert ((<[py "주소" := VStr (py "서울특별시 중구 세종대로 110")]> (<[py "id" := VInt 1]> ∅)
             : gmap pystr value) !! py "주소"
          = Some (VStr (py "서울특별시 중구 세종대로 110"))) as Hrow.
  { reflexivity. }
  split; [exact Hrow|]. split; [exact sample_row_columns|].
  destruct (@found_iff_coordinates plain_runtime (always 200 (ok_reply 127.0 37.5))
              (<[py "주소" := VStr (py "서울특별시 중구 세종대로 110")]> (<[py "id" := VInt 1]> ∅))
              (py "주소") (py "key") []
              (VStr (py "서울특별시 중구 세종대로 110")) Hrow sample_row_columns)
    as (row_result & rr & Hproc & Htm & Hfound & Htrue & _).
  exists row_result, rr. split; [exact Hproc|]. split; [exact Htm|].
  split; [exact Hfound | exact Htrue].
Defined.

(** A ROAD reply with HTTP 503 is parsed like any other. *)
Example road_reply_503_is_parsed :
  let remote :=
    first_then {| status_code := 200; json_body := inr (status_reply (py "NOT_FOUND")) |}
               {| status_code := 503; json_body := inr (ok_reply 127.1 37.6) |} in
  (@Geocoding.geocoding_latlong plain_runtime remote (py "세종대로 110") (py "key") []).1
  = inr (Resolved 37.6 127.1).
Proof. vm_compute. reflexivity. Qed.

(** [strip] knows the ideographic space (U+3000) as Python does. *)
Example strip_ideographic_space : strip (py " 　 ") = [] /\ strip (py " 중구 ") = py "중구".
Proof. split; reflexivity. Qed.

(** The sample table with the tasks finishing in reverse order: the rows
    come out in the order of completion, each with its own outcome. *)
Example sample_batch_reversed :
  let services := fun _ : nat => always 200 (ok_reply 127.0 37.5) in
  @Geocoding.collect plain_runtime ([], 0%nat)
     (reverse (@Geocoding.submit_all plain_runtime services sample_table (py "주소") (py "key")))
  = inr ([ Unresolved (py "빈 값") ∪ <[py "주소" := VStr (py "   ")]> (<[py "id" := VInt 3]> ∅);
           Unresolved (py "빈 값") ∪ <[py "주소" := VNone]> (<[py "id" := VInt 2]> ∅);
           <[py "TMY" := VFloat 37.5]>
             (<[py "TMX" := VFloat 127.0]>
               (Resolved 37.5 127.0
                ∪ <[py "주소" := VStr (py "서울특별시 중구 세종대로 110")]>
                    (<[py "id" := VInt 1]> ∅))) ],
         3%nat).
Proof. vm_compute. reflexivity. Qed.

(** ** More on the lookup of src/geocoding.py *)

Section Lookup_facts.
Context {rt : Runtime}.
Implicit Types (remote : Remote) (address api_key : pystr) (log : list Request).

Import Geocoding.

Lemma status_of_string body status :
  status_of body = inr (JVal (VStr status)) -> has_status body status.
Proof.
  unfold status_of, rbind. destruct (getitem body (py "response")) as [e|r] eqn:Hr;
    [discriminate|].
  intros Hs. by exists r.
Qed.

(** X1: a PARCEL reply whose status code is not 200 ends the lookup: the
    outcome is {found: False, error: "HTTP 에러: " + code}, one request is
    issued, and the body is not read (it may be anything, unparsable too). *)
Theorem transport_error_is_terminal remote address api_key log response :
  remote log (request api_key address PARCEL) = inr response ->
  status_code response <> 200 ->
  geocoding_latlong remote address api_key log
  = (inr (Unresolved (py "HTTP 에러: " ++ str_of_int (status_code response))),
     log ++ [request api_key address PARCEL]).
Proof.
  intros Hnet Hcode. apply Z.eqb_neq in Hcode.
  by rewrite geocoding_latlong_eq, lookup_eq, Hnet, Hcode.
Qed.

(** X2: when neither reply says OK (HTTP 200 and any other status at the
    first attempt, a parsed body with any other status at the second), the
    outcome is the generic failure "결과 없음 (V-World 응답 확인 필요)" after two
    requests; the statuses themselves are not reported. *)
Theorem no_match_after_two_attempts
    remote address api_key log body status response2 body2 status2 :
  remote log (request api_key address PARCEL)
    = inr {| status_code := 200; json_body := inr body |} ->
  status_of body = inr status ->
  str_eq status (py "OK") = false ->
  remote (log ++ [request api_key address PARCEL]) (request api_key address ROAD)
    = inr response2 ->
  json_body response2 = inr body2 ->
  status_of body2 = inr status2 ->
  str_eq status2 (py "OK") = false ->
  geocoding_latlong remote address api_key log
  = (inr (Unresolved (py "결과 없음 (V-World 응답 확인 필요)")),
     log ++ [request api_key address PARCEL; request api_key address ROAD]).
Proof.
  intros Hnet Hst Hne Hnet2 Hbody2 Hst2 Hne2.
  rewrite (parcel_not_ok _ _ _ _ _ _ Hnet Hst Hne), Hnet2. cbn [rbind].
  unfold road_reading. rewrite Hbody2. cbn [rbind]. rewrite Hst2. cbn [rbind].
  by rewrite Hne2.
Qed.

(** X3: a PARCEL reply that says OK but whose point cannot be read ends the
    lookup with the "시스템 에러" outcome after one request: the ROAD attempt
    is not made. *)
Theorem ok_reply_without_point remote address api_key log body e :
  remote log (request api_key address PARCEL)
    = inr {| status_code := 200; json_body := inr body |} ->
  has_status body (py "OK") ->
  point_result body = inl e ->
  geocoding_latlong remote address api_key log
  = (inr (Unresolved (py "시스템 에러: " ++ exc_str e)),
     log ++ [request api_key address PARCEL]).
Proof.
  intros Hnet Hst Hpt.
  rewrite geocoding_latlong_eq, lookup_eq, Hnet. cbn [status_code json_body negb Z.eqb Pos.eqb].
  by rewrite (status_of_has_status _ _ Hst), str_eq_same, Hpt.
Qed.

(** X4: a found outcome always comes from a reply that says OK: either the
    PARCEL reply (HTTP 200) or, after it, the ROAD reply, and the dictionary
    is the one read from that reply's point. *)
Theorem resolved_only_from_ok_reply remote address api_key log d :
  (geocoding_latlong remote address api_key log).1 = inr d ->
  d !! py "found" = Some (VBool true) ->
  (exists body,
     remote log (request api_key address PARCEL)
       = inr {| status_code := 200; json_body := inr body |}
     /\ has_status body (py "OK")
     /\ point_result body = inr d
     /\ (geocoding_latlong remote address api_key log).2
        = log ++ [request api_key address PARCEL])
  \/ (exists code2 body2,
        remote (log ++ [request api_key address PARCEL]) (request api_key address ROAD)
          = inr {| status_code := code2; json_body := inr body2 |}
        /\ has_status body2 (py "OK")
        /\ point_result body2 = inr d
        /\ (geocoding_latlong remote address api_key log).2
           = log ++ [request api_key address PARCEL; request api_key address ROAD]).
Proof.
  rewrite geocoding_latlong_eq, lookup_eq. cbn [fst snd].
  destruct (remote log _) as [e|[code [e|body]]] eqn:Hnet; cbn [status_code json_body].
  1: intros [= <-]; by rewrite Unresolved_found.
  1,2: destruct (code =? 200) eqn:Hcode; cbn [negb fst snd];
         [|intros [= <-]; by rewrite Unresolved_found].
  1: intros [= <-]; by rewrite Unresolved_found.
  apply Z.eqb_eq in Hcode as ->.
  destruct (status_of body) as [e|status] eqn:Hst; cbn [fst snd];
    [intros [= <-]; by rewrite Unresolved_found|].
  destruct (str_eq status (py "OK")) eqn:Hok; cbn [negb].
  - apply str_eq_true in Hok as ->. cbn [fst snd].
    destruct (point_result body) as [e|d'] eqn:Hpt; cbn [rbind closing];
      [intros [= <-]; by rewrite Unresolved_found|].
    intros [= <-] _. left. exists body. eauto using status_of_string.
  - rewrite road_lookup_eq. cbn [fst snd].
    destruct (remote (log ++ _) _) as [e|[code2 [e|body2]]] eqn:Hnet2;
      cbn [rbind json_body road_reading closing];
      [intros [= <-]; by rewrite Unresolved_found ..|].
    destruct (status_of body2) as [e|status2] eqn:Hst2; cbn [rbind closing];
      [intros [= <-]; by rewrite Unresolved_found|].
    destruct (str_eq status2 (py "OK")) eqn:Hok2;
      [|intros [= <-]; by rewrite Unresolved_found].
    apply str_eq_true in Hok2 as ->.
    destruct (point_result body2) as [e|d'] eqn:Hpt2; cbn [rbind closing];
      [intros [= <-]; by rewrite Unresolved_found|].
    intros [= <-] _. right. exists code2, body2.
    rewrite <- app_assoc. eauto using status_of_string.
Qed.

Lemma request_carries api_key address type_hint :
  carries api_key address (request api_key address type_hint).
Proof. repeat split; reflexivity. Qed.

(** X5: every request of one lookup goes to the same endpoint with the same
    headers and timeout and carries the address and the key as given, with
    the fixed parameters; the requests differ in the lookup-mode hint only,
    PARCEL first and ROAD second. *)
Theorem requests_carry_key_and_address remote address api_key log :
  exists issued,
    (geocoding_latlong remote address api_key log).2 = log ++ issued
    /\ Forall (carries api_key address) issued
    /\ (type_of <$> issued = [Some PARCEL]
        \/ type_of <$> issued = [Some PARCEL; Some ROAD]).
Proof.
  destruct (requests_issued remote address api_key log) as [H|H];
    eexists; (split; [exact H|]); (split; [repeat constructor; apply request_carries|]).
  - by left.
  - by right.
Qed.

(** X6: one or two requests are issued, and the ROAD request exactly when
    the PARCEL reply is HTTP 200 with a body that parses, has a status under
    response.status, and that status is not the string OK. *)
Theorem second_request_iff remote address api_key log :
  (calls (geocoding_latlong remote address api_key) log = 1%nat
   \/ calls (geocoding_latlong remote address api_key) log = 2%nat)
  /\ (calls (geocoding_latlong remote address api_key) log = 2%nat
      <-> exists body status,
            remote log (request api_key address PARCEL)
              = inr {| status_code := 200; json_body := inr body |}
            /\ status_of body = inr status
            /\ str_eq status (py "OK") = false).
Proof.
  split.
  { destruct (requests_issued remote address api_key log) as [H|H];
      rewrite (calls_app _ _ _ H); [by left | by right]. }
  split.
  - unfold calls. rewrite geocoding_latlong_eq, lookup_eq. cbn [snd].
    destruct (remote log _) as [e|[code [e|body]]] eqn:Hnet; cbn [status_code json_body snd].
    1: rewrite length_app; cbn; lia.
    1,2: destruct (code =? 200) eqn:Hcode; cbn [negb snd];
           [|rewrite length_app; cbn; lia].
    1: rewrite length_app; cbn; lia.
    apply Z.eqb_eq in Hcode as ->.
    destruct (status_of body) as [e|status] eqn:Hst; cbn [snd];
      [rewrite length_app; cbn; lia|].
    destruct (str_eq status (py "OK")) eqn:Hok; cbn [negb snd];
      [rewrite length_app; cbn; lia|].
    intros _. by exists body, status.
  - intros (body & status & Hnet & Hst & Hne).
    rewrite (calls_app _ _ [request api_key address PARCEL; request api_key address ROAD]);
      [reflexivity|].
    by rewrite (parcel_not_ok _ _ _ _ _ _ Hnet Hst Hne).
Qed.

(** X7: coordinates that arrive as strings are read with [float()], the
    latitude from [y] first and then the longitude from [x]; a string
    [float()] rejects gives the "시스템 에러" outcome for that string, [y]
    before [x]. One request is issued in every case. *)
Theorem string_coordinates_go_through_float remote address api_key log body sx sy :
  remote log (request api_key address PARCEL)
    = inr {| status_code := 200; json_body := inr body |} ->
  has_status body (py "OK") ->
  has_point body (JObj [ (py "x", JVal (VStr sx)); (py "y", JVal (VStr sy)) ]) ->
  geocoding_latlong remote address api_key log
  = (inr (match float_of_str sy, float_of_str sx with
          | Some lat, Some lng => Resolved lat lng
          | None, _ => Unresolved (py "시스템 에러: " ++ exc_str (ValueError sy))
          | Some _, None => Unresolved (py "시스템 에러: " ++ exc_str (ValueError sx))
          end),
     log ++ [request api_key address PARCEL]).
Proof.
  intros Hnet Hst (r & res & Hr & Hres & Hp).
  rewrite geocoding_latlong_eq, lookup_eq, Hnet. cbn [status_code json_body negb Z.eqb Pos.eqb].
  rewrite (status_of_has_status _ _ Hst), str_eq_same. cbn [negb fst snd].
  unfold point_result, rbind. rewrite Hr, Hres, Hp.
  change (getitem (JObj [ (py "x", JVal (VStr sx)); (py "y", JVal (VStr sy)) ]) (py "y"))
    with (inr (JVal (VStr sy)) : result json).
  change (getitem (JObj [ (py "x", JVal (VStr sx)); (py "y", JVal (VStr sy)) ]) (py "x"))
    with (inr (JVal (VStr sx)) : result json).
  cbn [py_float].
  destruct (float_of_str sy) as [lat|]; [|reflexivity].
  by destruct (float_of_str sx) as [lng|].
Qed.

End Lookup_facts.

(** ** More on the lookup of the checkpoint file *)

Section Checkpoint_lookup_facts.
Context {rt : Runtime}.
Implicit Types (remote : Remote) (address api_key : pystr) (log : list Request).

Lemma api_error_shape data status d :
  Checkpoint.api_error data status = inr d -> exists reason, d = Unresolved reason.
Proof.
  unfold Checkpoint.api_error, rbind. intros H.
  repeat case_match; try discriminate. injection H as <-. eauto.
Qed.




(** X9: the checkpoint file issues one or two requests, and the second one
    exactly when the PARCEL reply is HTTP 200 with the status NOT_FOUND; any
    other first reply ends the lookup. *)
Theorem ckpt_second_request_iff remote address api_key log :
  (calls (Checkpoint.geocoding_latlong remote address api_key) log = 1%nat
   \/ calls (Checkpoint.geocoding_latlong remote address api_key) log = 2%nat)
  /\ (calls (Checkpoint.geocoding_latlong remote address api_key) log = 2%nat
      <-> exists body,
            remote log (Checkpoint.request api_key address PARCEL)
              = inr {| status_code := 200; json_body := inr body |}
            /\ has_status body (py "NOT_FOUND")).
Proof.
  assert (forall m : M (gmap pystr value),
            (m log).2 = log ++ [Checkpoint.request api_key address PARCEL] ->
            calls m log = 1%nat) as Hone.
  { intros m Hm. by rewrite (calls_app _ _ _ Hm). }
  assert ((exists body,
             remote log (Checkpoint.request api_key address PARCEL)
               = inr {| status_code := 200; json_body := inr body |}
             /\ has_status body (py "NOT_FOUND"))
          \/ ((Checkpoint.geocoding_latlong remote address api_key log).2
                = log ++ [Checkpoint.request api_key address PARCEL]
              /\ ~ exists body,
                     remote log (Checkpoint.request api_key address PARCEL)
                       = inr {| status_code := 200; json_body := inr body |}
                     /\ has_status body (py "NOT_FOUND"))) as [Htwo|[Hlog Hnot]].
  { rewrite ckpt_geocoding_latlong_eq, ckpt_lookup_eq. cbn [snd].
    destruct (remote log _) as [e|[code [e|data]]] eqn:Hnet; cbn [status_code json_body snd].
    1: right; split; [done|]; by intros (body & [=] & _).
    1,2: destruct (code =? 200) eqn:Hcode; cbn [negb snd];
           [|right; split; [done|]; intros (body & [= -> _] & _); discriminate].
    1: right; split; [done|]; by intros (body & [=] & _).
    apply Z.eqb_eq in Hcode as ->.
    destruct (status_of data) as [e|status] eqn:Hst; cbn [snd].
    { right. split; [done|]. intros (body & [= <-] & Hs).
      apply status_of_has_status in Hs. congruence. }
    destruct (str_eq status (py "OK")) eqn:Hok; cbn [snd].
    { right. split; [done|]. intros (body & [= <-] & Hs).
      apply status_of_has_status in Hs. rewrite Hst in Hs. injection Hs as ->.
      discriminate Hok. }
    destruct (str_eq status (py "NOT_FOUND")) eqn:Hnf; cbn [snd].
    - left. apply str_eq_true in Hnf as ->. exists data. eauto using status_of_string.
    - right. split; [done|]. intros (body & [= <-] & Hs).
      apply status_of_has_status in Hs. rewrite Hst in Hs. injection Hs as ->.
      by rewrite str_eq_same in Hnf. }
  - destruct Htwo as (body & Hnet & Hst).
    assert (calls (Checkpoint.geocoding_latlong remote address api_key) log = 2%nat) as H2.
    { rewrite (calls_app _ _ [Checkpoint.request api_key address PARCEL;
                              Checkpoint.request api_key address ROAD]); [reflexivity|].
      by rewrite (ckpt_parcel_not_found _ _ _ _ _ Hnet Hst). }
    split; [by right|]. split; [|done]. intros _. by exists body.
  - pose proof (Hone _ Hlog) as H1. split; [by left|].
    split; [rewrite H1; discriminate | intros H; by destruct Hnot].
Qed.

(** X11: in the checkpoint file a service status other than OK and
    NOT_FOUND at the second attempt is reported like one at the first: the
    outcome is "API 에러: status (text)" with the reply's response.text, or
    nothing between the brackets when the reply has none, after two
    requests. *)
Theorem ckpt_road_service_error
    remote address api_key log body code2 body2 fields status2 :
  remote log (Checkpoint.request api_key address PARCEL)
    = inr {| status_code := 200; json_body := inr body |} ->
  has_status body (py "NOT_FOUND") ->
  remote (log ++ [Checkpoint.request api_key address PARCEL])
         (Checkpoint.request api_key address ROAD)
    = inr {| status_code := code2; json_body := inr body2 |} ->
  getitem body2 (py "response") = inr (JObj fields) ->
  assoc (py "status") fields = Some (JVal (VStr status2)) ->
  status2 <> py "OK" ->
  status2 <> py "NOT_FOUND" ->
  Checkpoint.geocoding_latlong remote address api_key log
  = (inr (Unresolved
            (py "API 에러: " ++ status2 ++ py " ("
             ++ json_str (default (JVal (VStr [])) (assoc (py "text") fields)) ++ py ")")),
     log ++ [Checkpoint.request api_key address PARCEL;
             Checkpoint.request api_key address ROAD]).
Proof.
  intros Hnet Hst Hnet2 Hr2 Hs2 Hok Hnf.
  rewrite (ckpt_parcel_not_found _ _ _ _ _ Hnet Hst), Hnet2.
  cbn [rbind json_body]. unfold ckpt_road_reading. cbn [rbind].
  assert (status_of body2 = inr (JVal (VStr status2))) as ->.
  { unfold status_of, rbind. rewrite Hr2. cbn. by rewrite Hs2. }
  cbn [rbind]. rewrite !str_eq_other by done. cbn [negb].
  unfold Checkpoint.api_error, rbind. rewrite Hr2. reflexivity.
Qed.

(** X12: in the checkpoint file NOT_FOUND at both attempts gives the failure
    "주소 불명 (결과 없음)" after two requests. *)
Theorem ckpt_no_match remote address api_key log body code2 body2 :
  remote log (Checkpoint.request api_key address PARCEL)
    = inr {| status_code := 200; json_body := inr body |} ->
  has_status body (py "NOT_FOUND") ->
  remote (log ++ [Checkpoint.request api_key address PARCEL])
         (Checkpoint.request api_key address ROAD)
    = inr {| status_code := code2; json_body := inr body2 |} ->
  has_status body2 (py "NOT_FOUND") ->
  Checkpoint.geocoding_latlong remote address api_key log
  = (inr (Unresolved (py "주소 불명 (결과 없음)")),
     log ++ [Checkpoint.request api_key address PARCEL;
             Checkpoint.request api_key address ROAD]).
Proof.
  intros Hnet Hst Hnet2 Hst2.
  rewrite (ckpt_parcel_not_found _ _ _ _ _ Hnet Hst), Hnet2.
  cbn [rbind json_body]. unfold ckpt_road_reading. cbn [rbind].
  rewrite (status_of_has_status _ _ Hst2). cbn [rbind].
  by rewrite str_eq_other, str_eq_same by done.
Qed.

End Checkpoint_lookup_facts.

(** ** The two files side by side *)

Section Two_files.
Context {rt : Runtime}.

Lemma Unresolved_ne_Resolved reason lat lng : Unresolved reason <> Resolved lat lng.
Proof.
  intros H. assert (Unresolved reason !! py "found" = Resolved lat lng !! py "found") as Hf
    by (by rewrite H).
  discriminate Hf.
Qed.

Lemma answers_first reply1 reply2 req : answers reply1 reply2 [] req = reply1.
Proof. reflexivity. Qed.

Lemma answers_later reply1 reply2 req0 req : answers reply1 reply2 ([] ++ [req0]) req = reply2.
Proof. reflexivity. Qed.

(** X13: against a service that answers by the order of the requests alone,
    whatever the checkpoint file resolves, src/geocoding.py resolves to the
    same coordinates. *)
Theorem ckpt_resolved_then_resolved reply1 reply2 address api_key lat lng :
  (Checkpoint.geocoding_latlong (answers reply1 reply2) address api_key []).1
    = inr (Resolved lat lng) ->
  (Geocoding.geocoding_latlong (answers reply1 reply2) address api_key []).1
    = inr (Resolved lat lng).
Proof.
  rewrite ckpt_geocoding_latlong_eq, ckpt_lookup_eq, geocoding_latlong_eq, lookup_eq.
  rewrite !answers_first. cbn [fst].
  destruct reply1 as [e|[code [e|data]]]; cbn [status_code json_body].
  1: by intros [= H%Unresolved_ne_Resolved].
  1,2: destruct (negb (code =? 200)); cbn [fst ckpt_closing];
         [by intros [= H%Unresolved_ne_Resolved]|].
  1: by intros [= H%Unresolved_ne_Resolved].
  destruct (status_of data) as [e|status]; cbn [fst ckpt_closing];
    [by intros [= H%Unresolved_ne_Resolved]|].
  destruct (str_eq status (py "OK")) eqn:Hok; cbn [negb fst].
  { destruct (point_result data) as [e|d]; cbn [rbind ckpt_closing closing];
      [by intros [= H%Unresolved_ne_Resolved] | done]. }
  destruct (str_eq status (py "NOT_FOUND")).
  - rewrite ckpt_road_lookup_eq, road_lookup_eq. cbn [fst].
    rewrite !answers_later.
    destruct reply2 as [e|[code2 [e|data2]]]; cbn [rbind json_body ckpt_road_reading road_reading];
      [by intros [= H%Unresolved_ne_Resolved] ..|].
    destruct (status_of data2) as [e|status2]; cbn [rbind ckpt_closing];
      [by intros [= H%Unresolved_ne_Resolved]|].
    destruct (str_eq status2 (py "OK")).
    + destruct (point_result data2) as [e|d]; cbn [rbind ckpt_closing closing];
        [by intros [= H%Unresolved_ne_Resolved] | done].
    + destruct (negb (str_eq status2 (py "NOT_FOUND")));
        [|by intros [= H%Unresolved_ne_Resolved]].
      destruct (Checkpoint.api_error data2 status2) as [e|d] eqn:Ha; cbn [rbind ckpt_closing];
        [by intros [= H%Unresolved_ne_Resolved]|].
      apply api_error_shape in Ha as [reason ->].
      by intros [= H%Unresolved_ne_Resolved].
  - cbn [fst]. destruct (Checkpoint.api_error data status) as [e|d] eqn:Ha; cbn [rbind ckpt_closing];
      [by intros [= H%Unresolved_ne_Resolved]|].
    apply api_error_shape in Ha as [reason ->].
    by intros [= H%Unresolved_ne_Resolved].
Qed.

End Two_files.

(** ** More on the rows and on the loop *)

Section Batch_facts.
Context {rt : Runtime}.
Implicit Types (remote : Remote) (address api_key addr_col : pystr) (log : list Request).
Implicit Types (row res rr : gmap pystr value).

Import Geocoding.

(** X14: a cell that is not null and whose text [str(cell)] is not blank is
    looked up under exactly that text, blanks at its ends included and a
    number as its digits: the first request of [process_row] is the PARCEL
    request for it, and the row comes back merged with the outcome of that
    lookup. *)
Theorem address_sent_as_written remote row addr_col api_key log addr :
  row !! addr_col = Some addr ->
  isna addr = false ->
  strip (py_str addr) <> [] ->
  exists res issued,
    geocoding_latlong remote (py_str addr) api_key log
      = (inr res, log ++ request api_key (py_str addr) PARCEL :: issued)
    /\ process_row remote row addr_col api_key log
       = (inr (res ∪ row), log ++ request api_key (py_str addr) PARCEL :: issued).
Proof.
  intros Hrow Hna Hstrip.
  assert (exists res issued,
            geocoding_latlong remote (py_str addr) api_key log
            = (inr res, log ++ request api_key (py_str addr) PARCEL :: issued))
    as (res & issued & Hgeo).
  { rewrite geocoding_latlong_eq.
    pose proof (requests_issued remote (py_str addr) api_key log) as Hreq.
    rewrite geocoding_latlong_eq in Hreq. cbn [snd] in Hreq.
    destruct Hreq as [-> | ->]; by eexists _, _. }
  exists res, issued. split; [exact Hgeo|].
  unfold process_row, bind, dict_item. rewrite Hrow. cbn [lift ret].
  unfold row_outcome. rewrite Hna, bool_decide_eq_false_2 by done. cbn [orb].
  by rewrite Hgeo.
Qed.

(** X16: the outcome's fields replace
    columns of the same name, and the other columns stay. A found row has
    the outcome's lat and lng, the TM pair computed from them (TMX the
    second, TMY the first number of the EPSG:4326 to EPSG:5186 transform),
    and keeps a column named error if the sheet has one; a row that is not
    found has the outcome's error and keeps columns named lat, lng, TMX or
    TMY if the sheet has them. *)
Theorem sheet_columns_named_like_results remote row addr_col api_key log addr :
  row !! addr_col = Some addr ->
  exists res rr,
    (row_outcome remote addr api_key log).1 = inr res
    /\ (process_row remote row addr_col api_key log).1 = inr (res ∪ row)
    /\ with_tm (res ∪ row) = inr rr
    /\ ((exists lat lng,
          res = Resolved lat lng
          /\ rr !! py "found" = Some (VBool true)
          /\ rr !! py "lat" = Some (VFloat lat)
          /\ rr !! py "lng" = Some (VFloat lng)
          /\ rr !! py "TMX"
             = Some (VFloat (transform (py "EPSG:4326") (py "EPSG:5186") lat lng).2)
          /\ rr !! py "TMY"
             = Some (VFloat (transform (py "EPSG:4326") (py "EPSG:5186") lat lng).1)
          /\ rr !! py "error" = row !! py "error")
        \/ (exists reason,
             res = Unresolved reason
             /\ rr !! py "found" = Some (VBool false)
             /\ rr !! py "error" = Some (VStr reason)
             /\ rr !! py "lat" = row !! py "lat"
             /\ rr !! py "lng" = row !! py "lng"
             /\ rr !! py "TMX" = row !! py "TMX"
             /\ rr !! py "TMY" = row !! py "TMY")).
Proof.
  intros Haddr.
  destruct (process_row_ok remote row addr_col api_key log addr Haddr)
    as (res & log' & Hout & Hres & Hproc).
  destruct (with_tm_ok res row Hres) as [rr Hrr].
  exists res, rr. rewrite Hout, Hproc. split; [done|]. split; [done|]. split; [done|].
  destruct Hres as [(lat & lng & ->)|(reason & ->)].
  - left. exists lat, lng. rewrite with_tm_resolved in Hrr. injection Hrr as <-.
    rewrite convert_tm_axes. cbn [fst snd].
    split; [done|].
    split; [rewrite !lookup_insert_ne by py_ne; apply lookup_union_Some_l, Resolved_found|].
    split; [rewrite !lookup_insert_ne by py_ne; apply lookup_union_Some_l, Resolved_lat|].
    split; [rewrite !lookup_insert_ne by py_ne; apply lookup_union_Some_l, Resolved_lng|].
    split; [rewrite lookup_insert_ne by py_ne; apply lookup_insert_eq|].
    split; [apply lookup_insert_eq|].
    rewrite !lookup_insert_ne by py_ne.
    apply lookup_union_r, Resolved_other; py_ne.
  - right. exists reason. rewrite with_tm_unresolved in Hrr. injection Hrr as <-.
    split; [done|].
    split; [apply lookup_union_Some_l, Unresolved_found|].
    split; [apply lookup_union_Some_l, Unresolved_error|].
    repeat split; apply lookup_union_r, Unresolved_other; py_ne.
Qed.

(** The rows the loop appends have the shape of a result row, whatever the
    columns of the sheet. *)
Lemma with_tm_shape res row rr :
  LookupOutcome res -> with_tm (res ∪ row) = inr rr -> result_row_shape rr.
Proof.
  intros [(lat & lng & ->)|(reason & ->)] Hrr.
  - rewrite with_tm_resolved in Hrr. injection Hrr as <-. left.
    split; [rewrite !lookup_insert_ne by py_ne; apply lookup_union_Some_l, Resolved_found|].
    eexists lat, lng, _, _.
    split; [rewrite !lookup_insert_ne by py_ne; apply lookup_union_Some_l, Resolved_lat|].
    split; [rewrite !lookup_insert_ne by py_ne; apply lookup_union_Some_l, Resolved_lng|].
    split; [rewrite lookup_insert_ne by py_ne; apply lookup_insert_eq|].
    apply lookup_insert_eq.
  - rewrite with_tm_unresolved in Hrr. injection Hrr as <-. right.
    split; [apply lookup_union_Some_l, Unresolved_found|].
    exists reason. apply lookup_union_Some_l, Unresolved_error.
Qed.

(** X17: the loop only appends, one row per finished task, and counts in
    step: when it ends normally from the state (results, n), the new list
    is the old one followed by as many rows as there are tasks, and the
    count is n plus that number. *)
Theorem collect_counts_what_it_appends completed : forall st st',
  collect st completed = inr st' ->
  st'.2 = (st.2 + length completed)%nat
  /\ exists added, st'.1 = st.1 ++ added /\ length added = length completed.
Proof.
  induction completed as [|future rest IH]; intros [results n] st' H.
  - injection H as <-. cbn. split; [lia|]. exists []. by rewrite app_nil_r.
  - cbn [collect] in H. unfold collect_step in H.
    destruct (future_result future) as [e|row_result]; [discriminate|].
    cbn [rbind] in H.
    destruct (with_tm row_result) as [e|rr]; [discriminate|].
    cbn [rbind fst snd] in H.
    destruct (IH _ _ H) as (Hn & added & Hadd & Hlen). cbn [fst snd] in *.
    split; [rewrite Hn; cbn; lia|].
    exists (rr :: added). rewrite Hadd, <- app_assoc. split; [done|]. cbn. by rewrite Hlen.
Qed.

(** A task of the batch either gives a row to append or raises the
    [KeyError] of the missing address column. *)
Lemma submitted_future_cases services df addr_col api_key i future :
  submit_all services df addr_col api_key !! i = Some future ->
  exists row,
    df !! i = Some row
    /\ future_index future = i
    /\ ((is_Some (row !! addr_col) /\ exists rr, appended_row future = inr rr)
        \/ (row !! addr_col = None /\ future_result future = inl (KeyError addr_col))).
Proof.
  unfold submit_all. rewrite list_lookup_imap.
  destruct (df !! i) as [row|] eqn:Hrow; [|discriminate].
  intros [= <-]. exists row. split; [done|]. split; [done|]. cbn [future_result].
  destruct (row !! addr_col) as [addr|] eqn:Haddr.
  - left. split; [by eexists|].
    destruct (process_row_ok (services i) row addr_col api_key [] addr Haddr)
      as (res & log' & _ & Hres & Hproc).
    unfold appended_row. cbn [future_result]. rewrite Hproc. cbn [fst rbind].
    by apply with_tm_ok.
  - right. split; [done|].
    unfold process_row, bind, dict_item. by rewrite Haddr.
Qed.

Lemma collect_aborts addr_col completed : forall st,
  Forall (fun future => (exists rr, appended_row future = inr rr)
                        \/ future_result future = inl (KeyError addr_col)) completed ->
  Exists (fun future => future_result future = inl (KeyError addr_col)) completed ->
  collect st completed = inl (KeyError addr_col).
Proof.
  induction completed as [|future rest IH]; intros st Hall Hex; [by inversion Hex|].
  apply Forall_cons in Hall as [Hfut Hall].
  cbn [collect]. unfold collect_step.
  destruct Hfut as [[rr Hrr]|Hbad]; [|by rewrite Hbad].
  unfold appended_row in Hrr.
  destruct (future_result future) as [e|row_result] eqn:Hres; [discriminate|].
  cbn [rbind] in Hrr |- *. rewrite Hrr. cbn [rbind].
  apply IH; [done|]. apply Exists_cons in Hex as [Hbad|Hex]; [congruence | done].
Qed.

(** X15: a row without the address column ends the whole batch: in whatever
    order the tasks finish, the loop stops with [KeyError] of that column
    and no result table is produced, the rows of the other tasks included. *)
Theorem missing_column_aborts_batch services df addr_col api_key completed row :
  row ∈ df ->
  row !! addr_col = None ->
  completed ≡ₚ submit_all services df addr_col api_key ->
  collect ([], 0%nat) completed = inl (KeyError addr_col).
Proof.
  intros Hin Hnone Hperm. apply collect_aborts.
  - rewrite Hperm. apply Forall_lookup. intros i future Hi.
    destruct (submitted_future_cases _ _ _ _ _ _ Hi) as (row' & _ & _ & [[_ H]|[_ H]]);
      [by left | by right].
  - rewrite Hperm. apply list_elem_of_lookup in Hin as [i Hi].
    apply Exists_exists.
    assert (is_Some (submit_all services df addr_col api_key !! i)) as [future Hfut].
    { unfold submit_all. rewrite list_lookup_imap, Hi. by eexists. }
    exists future. split; [by eapply list_elem_of_lookup_2|].
    destruct (submitted_future_cases _ _ _ _ _ _ Hfut) as (row' & Hrow' & _ & [[[v Hv] _]|[_ H]]);
      [congruence | done].
Qed.

Lemma lookup_omap_row_of futures j future :
  Forall (fun future => exists rr, appended_row future = inr rr) futures ->
  futures !! j = Some future ->
  omap row_of futures !! j = row_of future.
Proof.
  intros Hall. revert j.
  induction Hall as [|future0 rest [rr Hrr] _ IH]; intros j Hj; [done|].
  cbn [omap list_omap]. unfold row_of at 1. rewrite Hrr.
  destruct j as [|j].
  - injection Hj as <-. unfold row_of. by rewrite Hrr.
  - by apply IH.
Qed.

(** X18: the result rows stand in the order in which the tasks finish: the
    row at position [j] is the one of the [j]-th finished task, that is the
    row of the table at that task's index merged with the outcome of its
    own address cell. *)
Theorem results_follow_completion_order services df addr_col api_key completed :
  Forall (fun row => is_Some (row !! addr_col)) df ->
  completed ≡ₚ submit_all services df addr_col api_key ->
  exists results,
    collect ([], 0%nat) completed = inr (results, length df)
    /\ forall j future, completed !! j = Some future ->
         exists row addr res rr,
           df !! future_index future = Some row
           /\ row !! addr_col = Some addr
           /\ (row_outcome (services (future_index future)) addr api_key []).1 = inr res
           /\ with_tm (res ∪ row) = inr rr
           /\ results !! j = Some rr.
Proof.
  intros Hdf Hperm.
  assert (Forall (fun future => exists rr, appended_row future = inr rr)
                 (submit_all services df addr_col api_key)) as Hall.
  { apply Forall_forall. intros future Hin. by eapply appended_row_submitted. }
  assert (Forall (fun future => exists rr, appended_row future = inr rr) completed)
    as Hall'.
  { by rewrite Hperm. }
  assert (length completed = length df) as Hlen.
  { rewrite Hperm. unfold submit_all. apply length_imap. }
  exists (omap row_of completed).
  split; [by rewrite collect_appends, Hlen|].
  intros j future Hj.
  assert (future ∈ submit_all services df addr_col api_key) as Hin.
  { rewrite <- Hperm. by eapply list_elem_of_lookup_2. }
  apply list_elem_of_lookup in Hin as [i Hi].
  destruct (submitted_future_cases _ _ _ _ _ _ Hi) as (row & Hrow & Hidx & _).
  destruct (submitted_row_merged services addr_col api_key df i row Hdf Hrow)
    as (addr & res & rr & Haddr & Hout & Htm & Hm & _).
  exists row, addr, res, rr. rewrite Hidx.
  split; [done|]. split; [done|]. split; [done|]. split; [done|].
  rewrite (lookup_omap_row_of _ _ _ Hall' Hj).
  by rewrite <- Hm, (lookup_omap_row_of _ _ _ Hall Hi).
Qed.

(** X19: every row of the result table has the shape of a result row,
    whatever columns the sheet has: found = True with lat, lng, TMX and TMY
    as floats, or found = False with an error text. *)
Theorem result_rows_are_shaped services df addr_col api_key completed results n :
  completed ≡ₚ submit_all services df addr_col api_key ->
  collect ([], 0%nat) completed = inr (results, n) ->
  Forall result_row_shape results.
Proof.
  intros Hperm Hcollect.
  assert (Forall (fun future => forall rr, appended_row future = inr rr -> result_row_shape rr)
                 completed) as Hshape.
  { rewrite Hperm. apply Forall_lookup. intros i future Hi rr Hrr.
    unfold submit_all in Hi. rewrite list_lookup_imap in Hi.
    destruct (df !! i) as [row|]; [|discriminate]. injection Hi as <-.
    unfold appended_row in Hrr. cbn [future_result] in Hrr.
    unfold process_row, bind, dict_item in Hrr.
    destruct (row !! addr_col) as [addr|]; [|discriminate]. cbn [lift ret] in Hrr.
    destruct (row_outcome_ok (services i) addr api_key []) as (res & log' & Hout & Hres).
    rewrite Hout in Hrr. cbn [ret fst rbind] in Hrr. by eapply with_tm_shape. }
  clear Hperm.
  enough (forall st st', collect st completed = inr st' ->
            Forall result_row_shape st.1 -> Forall result_row_shape st'.1) as Hgen.
  { by apply (Hgen _ _ Hcollect). }
  clear Hcollect. induction Hshape as [|future rest Hfut _ IH]; intros [rs k] st' H Hrs.
  - by injection H as <-.
  - cbn [collect] in H. unfold collect_step in H.
    destruct (future_result future) as [e|row_result] eqn:Hres; [discriminate|].
    cbn [rbind] in H.
    destruct (with_tm row_result) as [e|rr] eqn:Htm; [discriminate|].
    cbn [rbind fst snd] in H. apply (IH _ _ H). cbn [fst].
    apply Forall_app. split; [done|]. apply Forall_singleton, Hfut.
    unfold appended_row. rewrite Hres. cbn [rbind]. exact Htm.
Qed.

End Batch_facts.

(** ** The shapefile export *)

Section Export_facts.
Variable shapefile_zip :
  pystr -> pystr -> list (gmap pystr value) -> list (value * value) -> result (list N).
Implicit Types (results : list (gmap pystr value)) (col file_name_prefix : pystr).

Lemma column_of_records results col :
  col ∈ columns (DataFrame_of results)
  <-> exists record, record ∈ results /\ is_Some (record !! col).
Proof.
  cbn [columns DataFrame_of]. rewrite elem_of_union_list. split.
  - intros (X & HX & Hcol). apply list_elem_of_fmap in HX as (record & -> & Hin).
    exists record. split; [done|]. by apply elem_of_dom.
  - intros (record & Hin & Hcol). exists (dom record).
    split; [apply list_elem_of_fmap; eauto | by apply elem_of_dom].
Qed.

Lemma shaped_eq_True rr : result_row_shape rr -> eq_True (cell rr (py "found")) = is_found rr.
Proof.
  unfold cell, is_found. by intros [[-> _]|[-> _]].
Qed.

Lemma df_mask_found results :
  Forall result_row_shape results ->
  df_mask results (eq_True <$> ((fun record => cell record (py "found")) <$> results))
  = List.filter is_found results.
Proof.
  induction 1 as [|rr rest Hrr _ IH]; [done|].
  cbn [fmap list_fmap df_mask List.filter]. rewrite (shaped_eq_True _ Hrr), IH.
  reflexivity.
Qed.

Lemma zip_columns (rows : list (gmap pystr value)) (c1 c2 : pystr) :
  zip ((fun record => cell record c1) <$> rows) ((fun record => cell record c2) <$> rows)
  = (fun record => (cell record c1, cell record c2)) <$> rows.
Proof. induction rows as [|row rows IH]; [done|]. cbn. by rewrite IH. Qed.

Lemma filter_is_found_nil results :
  List.filter is_found results = [] <-> Forall (fun rr => is_found rr = false) results.
Proof.
  induction results as [|rr rest IH]; [by split; [constructor|]|].
  cbn [List.filter]. destruct (is_found rr) eqn:Hf.
  - split; [discriminate|]. intros H. apply Forall_cons in H as [H _]. congruence.
  - rewrite IH. split; [by constructor|]. intros H. by apply Forall_cons in H as [_ H].
Qed.

(** X20: a table in which no record has the key found, the empty table
    first of all, makes [convert_to_shp_zip] raise [KeyError] for found
    before anything is written. *)
Theorem export_needs_found_column results file_name_prefix :
  Forall (fun record => record !! py "found" = None) results ->
  convert_to_shp_zip shapefile_zip (DataFrame_of results) file_name_prefix
  = inl (KeyError (py "found")).
Proof.
  intros Hnone. unfold convert_to_shp_zip, df_getitem.
  rewrite bool_decide_eq_false_2; [done|].
  rewrite column_of_records. intros (record & Hin & [v Hv]).
  rewrite Forall_forall in Hnone. specialize (Hnone _ Hin). congruence.
Qed.

(** X21: on a table of result rows that is not empty, [convert_to_shp_zip]
    returns [None] exactly when no row is found. *)
Theorem export_none_iff_nothing_found results file_name_prefix :
  results <> [] ->
  Forall result_row_shape results ->
  convert_to_shp_zip shapefile_zip (DataFrame_of results) file_name_prefix = inr None
  <-> Forall (fun rr => is_found rr = false) results.
Proof.
  intros Hne Hshape.
  assert (py "found" ∈ columns (DataFrame_of results)) as Hcol.
  { apply column_of_records. destruct results as [|rr rest]; [done|].
    exists rr. split; [by left|].
    apply Forall_cons in Hshape as [[[-> _]|[-> _]] _]; by eexists. }
  unfold convert_to_shp_zip, df_getitem at 1.
  rewrite bool_decide_eq_true_2 by done. cbn [rbind records DataFrame_of columns].
  rewrite df_mask_found by done.
  destruct (List.filter is_found results) as [|rr valid] eqn:Hvalid.
  - rewrite bool_decide_eq_true_2 by done. split; [intros _|done].
    by apply filter_is_found_nil.
  - rewrite bool_decide_eq_false_2 by done. split.
    + unfold rbind. intros H. repeat case_match; discriminate.
    + intros H. apply filter_is_found_nil in H. congruence.
Qed.

(** X22: when some row is found, the records handed to the writer are the
    found rows in the order of the table, the CRS is EPSG:4326, and the
    point of each record is (lng, lat) of that same record, as floats; what
    the writer returns or raises is what [convert_to_shp_zip] returns or
    raises. *)
Theorem export_points_are_found_rows results file_name_prefix :
  Forall result_row_shape results ->
  Exists (fun rr => is_found rr = true) results ->
  exists points,
    convert_to_shp_zip shapefile_zip (DataFrame_of results) file_name_prefix
    = (zip_bytes <~ shapefile_zip (py "EPSG:4326") file_name_prefix
                      (List.filter is_found results) points ;;
       inr (Some zip_bytes))
    /\ Forall2 (fun rr point =>
                  exists lat lng,
                    rr !! py "lat" = Some (VFloat lat)
                    /\ rr !! py "lng" = Some (VFloat lng)
                    /\ point = (VFloat lng, VFloat lat))
               (List.filter is_found results) points.
Proof.
  intros Hshape Hex.
  apply Exists_exists in Hex as (rr0 & Hin0 & Hf0).
  assert (rr0 !! py "found" = Some (VBool true)) as Hfound0.
  { unfold is_found in Hf0. repeat case_match; congruence. }
  assert (exists lat lng, rr0 !! py "lat" = Some (VFloat lat)
                          /\ rr0 !! py "lng" = Some (VFloat lng)) as (lat0 & lng0 & Hlat0 & Hlng0).
  { rewrite Forall_forall in Hshape.
    destruct (Hshape _ Hin0) as [[_ (lat & lng & _ & _ & ? & ? & _)]|[? _]];
      [eauto | congruence]. }
  assert (forall col v, rr0 !! col = Some v -> col ∈ columns (DataFrame_of results)) as Hcol.
  { intros col v Hv. apply column_of_records. exists rr0. split; [done|by eexists]. }
  exists ((fun record => (cell record (py "lng"), cell record (py "lat")))
            <$> List.filter is_found results).
  split.
  - unfold convert_to_shp_zip, df_getitem.
    rewrite (bool_decide_eq_true_2 _ (Hcol _ _ Hfound0)).
    cbn [rbind records DataFrame_of columns].
    rewrite df_mask_found by done.
    assert (List.filter is_found results <> []) as Hne.
    { intros H. apply filter_is_found_nil in H. rewrite Forall_forall in H.
      specialize (H _ Hin0). congruence. }
    rewrite (bool_decide_eq_false_2 _ Hne).
    fold (columns (DataFrame_of results)).
    rewrite (bool_decide_eq_true_2 _ (Hcol _ _ Hlng0)), (bool_decide_eq_true_2 _ (Hcol _ _ Hlat0)).
    cbn [rbind]. by rewrite zip_columns.
  - apply Forall2_fmap_r, Forall_Forall2_diag, Forall_forall.
    intros rr Hin. apply list_elem_of_In, filter_In in Hin as [Hin Hf].
    apply list_elem_of_In in Hin. rewrite Forall_forall in Hshape.
    destruct (Hshape _ Hin) as [[_ (lat & lng & _ & _ & Hlat & Hlng & _)]|[Hnf _]].
    + exists lat, lng. unfold cell. by rewrite Hlat, Hlng.
    + unfold is_found in Hf. rewrite Hnf in Hf. discriminate.
Qed.

End Export_facts.

(** ** The further statements on concrete inputs *)

(** X1 on a reply with HTTP 404 whose body does not parse. *)
Lemma transport_error_is_terminal_witness :
  let response := {| status_code := 404; json_body := inl (JSONDecodeError []) |} in
  let remote := answers (inr response) (inl (RequestException [])) in
  status_code response <> 200
  /\ @Geocoding.geocoding_latlong plain_runtime remote (py "세종대로 110") (py "key") []
     = (inr (Unresolved (py "HTTP 에러: " ++ str_of_int (status_code response))),
        [] ++ [Geocoding.request (py "key") (py "세종대로 110") PARCEL]).
Proof.
  intros response remote.
  assert (status_code response <> 200) as Hcode by (by cbn).
  split; [exact Hcode|].
  exact (@transport_error_is_terminal plain_runtime remote (py "세종대로 110") (py "key") []
           response eq_refl Hcode).
Defined.

(** X2 on a service that answers INVALID_KEY and then, with HTTP 500,
    NOT_FOUND. *)
Lemma no_match_after_two_attempts_witness :
  let body := status_reply (py "INVALID_KEY") in
  let body2 := status_reply (py "NOT_FOUND") in
  let response2 := {| status_code := 500; json_body := inr body2 |} in
  let remote := answers (inr {| status_code := 200; json_body := inr body |}) (inr response2) in
  status_of body = inr (JVal (VStr (py "INVALID_KEY")))
  /\ str_eq (JVal (VStr (py "INVALID_KEY"))) (py "OK") = false
  /\ status_of body2 = inr (JVal (VStr (py "NOT_FOUND")))
  /\ @Geocoding.geocoding_latlong plain_runtime remote (py "세종대로 110") (py "key") []
     = (inr (Unresolved (py "결과 없음 (V-World 응답 확인 필요)")),
        [] ++ [Geocoding.request (py "key") (py "세종대로 110") PARCEL;
               Geocoding.request (py "key") (py "세종대로 110") ROAD]).
Proof.
  intros body body2 response2 remote.
  split; [reflexivity|]. split; [reflexivity|]. split; [reflexivity|].
  exact (@no_match_after_two_attempts plain_runtime remote (py "세종대로 110") (py "key") []
           body (JVal (VStr (py "INVALID_KEY"))) response2 body2
           (JVal (VStr (py "NOT_FOUND")))
           eq_refl eq_refl eq_refl eq_refl eq_refl eq_refl eq_refl).
Defined.

(** X3 on a reply that says OK and has no result. *)
Lemma ok_reply_without_point_witness :
  let body := status_reply (py "OK") in
  let remote := always 200 body in
  has_status body (py "OK")
  /\ @point_result plain_runtime body = inl (KeyError (py "result"))
  /\ @Geocoding.geocoding_latlong plain_runtime remote (py "세종대로 110") (py "key") []
     = (inr (Unresolved (py "시스템 에러: " ++ @exc_str plain_runtime (KeyError (py "result")))),
        [] ++ [Geocoding.request (py "key") (py "세종대로 110") PARCEL]).
Proof.
  intros body remote.
  assert (has_status body (py "OK")) as Hst by (eexists; split; reflexivity).
  split; [exact Hst|]. split; [reflexivity|].
  exact (@ok_reply_without_point plain_runtime remote (py "세종대로 110") (py "key") []
           body (KeyError (py "result")) eq_refl Hst eq_refl).
Defined.

(** X4 on a service that answers OK with a point. *)
Lemma resolved_only_from_ok_reply_witness :
  let remote := always 200 (ok_reply 127.0 37.5) in
  (@Geocoding.geocoding_latlong plain_runtime remote (py "세종대로 110") (py "key") []).1
    = inr (Resolved 37.5 127.0)
  /\ Resolved 37.5 127.0 !! py "found" = Some (VBool true)
  /\ ((exists body,
         remote [] (Geocoding.request (py "key") (py "세종대로 110") PARCEL)
           = inr {| status_code := 200; json_body := inr body |}
         /\ has_status body (py "OK"))
      \/ (exists code2 body2,
            remote ([] ++ [Geocoding.request (py "key") (py "세종대로 110") PARCEL])
                   (Geocoding.request (py "key") (py "세종대로 110") ROAD)
              = inr {| status_code := code2; json_body := inr body2 |}
            /\ has_status body2 (py "OK"))).
Proof.
  intros remote.
  assert ((@Geocoding.geocoding_latlong plain_runtime remote (py "세종대로 110") (py "key") []).1
          = inr (Resolved 37.5 127.0)) as Hrun by (vm_compute; reflexivity).
  assert (Resolved 37.5 127.0 !! py "found" = Some (VBool true)) as Hfound by reflexivity.
  split; [exact Hrun|]. split; [exact Hfound|].
  destruct (@resolved_only_from_ok_reply plain_runtime remote (py "세종대로 110") (py "key") []
              (Resolved 37.5 127.0) Hrun Hfound)
    as [(body & Hnet & Hst & _)|(code2 & body2 & Hnet & Hst & _)].
  - left. exists body. split; [exact Hnet | exact Hst].
  - right. exists code2, body2. split; [exact Hnet | exact Hst].
Defined.

(** X7 on the reply {x: "127.0", y: "37.5"}, with a [float()] that reads
    these two strings. *)
Lemma string_coordinates_go_through_float_witness :
  let body := ok_reply_str (py "127.0") (py "37.5") in
  let remote := always 200 body in
  has_status body (py "OK")
  /\ has_point body (JObj [ (py "x", JVal (VStr (py "127.0"))); (py "y", JVal (VStr (py "37.5"))) ])
  /\ @Geocoding.geocoding_latlong decimal_runtime remote (py "세종대로 110") (py "key") []
     = (inr (Resolved 37.5 127.0),
        [] ++ [Geocoding.request (py "key") (py "세종대로 110") PARCEL]).
Proof.
  intros body remote.
  assert (has_status body (py "OK")) as Hst by (eexists; split; reflexivity).
  assert (has_point body
            (JObj [ (py "x", JVal (VStr (py "127.0"))); (py "y", JVal (VStr (py "37.5"))) ]))
    as Hpt by (eexists _, _; repeat split; reflexivity).
  split; [exact Hst|]. split; [exact Hpt|].
  exact (@string_coordinates_go_through_float decimal_runtime remote (py "세종대로 110")
           (py "key") [] body (py "127.0") (py "37.5") eq_refl Hst Hpt).
Defined.

(** X10 on a reply INVALID_KEY with a text, in the checkpoint file. *)
Lemma ckpt_service_error_is_terminal_witness :
  let body :=
    JObj [ (py "response",
            JObj [ (py "status", JVal (VStr (py "INVALID_KEY")));
                   (py "text", JVal (VStr (py "등록되지 않은 인증키입니다."))) ]) ] in
  let remote := always 200 body in
  has_status body (py "INVALID_KEY")
  /\ @Checkpoint.geocoding_latlong plain_runtime remote (py "세종대로 110") (py "key") []
     = (inr (Unresolved (py "API 에러: INVALID_KEY (등록되지 않은 인증키입니다.)")),
        [] ++ [Checkpoint.request (py "key") (py "세종대로 110") PARCEL]).
Proof.
  intros body remote.
  assert (has_status body (py "INVALID_KEY")) as Hst by (eexists; split; reflexivity).
  split; [exact Hst|].
  assert (py "INVALID_KEY" <> py "OK") as Hok by py_ne.
  assert (py "INVALID_KEY" <> py "NOT_FOUND") as Hnf by py_ne.
  destruct (@ckpt_service_error_is_terminal plain_runtime remote (py "세종대로 110") (py "key") []
              body (py "INVALID_KEY") eq_refl Hst Hok Hnf) as (fields & Hfields & Hrun).
  injection Hfields as <-. exact Hrun.
Defined.

(** X11 on a ROAD reply INVALID_KEY with a text. *)
Lemma ckpt_road_service_error_witness :
  let body := status_reply (py "NOT_FOUND") in
  let fields :=
    [ (py "status", JVal (VStr (py "INVALID_KEY")));
      (py "text", JVal (VStr (py "등록되지 않은 인증키입니다."))) ] in
  let body2 := JObj [ (py "response", JObj fields) ] in
  let remote :=
    answers (inr {| status_code := 200; json_body := inr body |})
            (inr {| status_code := 200; json_body := inr body2 |}) in
  has_status body (py "NOT_FOUND")
  /\ @Checkpoint.geocoding_latlong plain_runtime remote (py "세종대로 110") (py "key") []
     = (inr (Unresolved (py "API 에러: INVALID_KEY (등록되지 않은 인증키입니다.)")),
        [] ++ [Checkpoint.request (py "key") (py "세종대로 110") PARCEL;
               Checkpoint.request (py "key") (py "세종대로 110") ROAD]).
Proof.
  intros body fields body2 remote.
  assert (has_status body (py "NOT_FOUND")) as Hst by (eexists; split; reflexivity).
  split; [exact Hst|].
  refine (@ckpt_road_service_error plain_runtime remote (py "세종대로 110") (py "key") []
            body 200 body2 fields (py "INVALID_KEY") eq_refl Hst eq_refl eq_refl eq_refl _ _);
    py_ne.
Defined.

(** X12 on a service that answers NOT_FOUND twice. *)
Lemma ckpt_no_match_witness :
  let body := status_reply (py "NOT_FOUND") in
  let remote := always 200 body in
  has_status body (py "NOT_FOUND")
  /\ @Checkpoint.geocoding_latlong plain_runtime remote (py "세종대로 110") (py "key") []
     = (inr (Unresolved (py "주소 불명 (결과 없음)")),
        [] ++ [Checkpoint.request (py "key") (py "세종대로 110") PARCEL;
               Checkpoint.request (py "key") (py "세종대로 110") ROAD]).
Proof.
  intros body remote.
  assert (has_status body (py "NOT_FOUND")) as Hst by (eexists; split; reflexivity).
  split; [exact Hst|].
  exact (@ckpt_no_match plain_runtime remote (py "세종대로 110") (py "key") []
           body 200 body eq_refl Hst eq_refl Hst).
Defined.

(** X13 on a service that answers NOT_FOUND and then OK with a point. *)
Lemma ckpt_resolved_then_resolved_witness :
  let reply1 : result Response :=
    inr {| status_code := 200; json_body := inr (status_reply (py "NOT_FOUND")) |} in
  let reply2 : result Response :=
    inr {| status_code := 200; json_body := inr (ok_reply 127.1 37.6) |} in
  (@Checkpoint.geocoding_latlong plain_runtime (answers reply1 reply2)
     (py "세종대로 110") (py "key") []).1 = inr (Resolved 37.6 127.1)
  /\ (@Geocoding.geocoding_latlong plain_runtime (answers reply1 reply2)
        (py "세종대로 110") (py "key") []).1 = inr (Resolved 37.6 127.1).
Proof.
  intros reply1 reply2.
  assert ((@Checkpoint.geocoding_latlong plain_runtime (answers reply1 reply2)
             (py "세종대로 110") (py "key") []).1 = inr (Resolved 37.6 127.1)) as Hckpt
    by (vm_compute; reflexivity).
  split; [exact Hckpt|].
  exact (@ckpt_resolved_then_resolved plain_runtime reply1 reply2 (py "세종대로 110") (py "key")
           37.6%float 127.1%float Hckpt).
Defined.

(** X14 on the row whose address has blanks at both ends. *)
Lemma address_sent_as_written_witness :
  let remote := always 200 (ok_reply 127.0 37.5) in
  let addr := VStr (py " 세종대로 110 ") in
  padded_row !! py "주소" = Some addr
  /\ isna addr = false
  /\ strip (@py_str plain_runtime addr) <> []
  /\ exists res issued,
       @Geocoding.process_row plain_runtime remote padded_row (py "주소") (py "key") []
       = (inr (res ∪ padded_row),
          [] ++ Geocoding.request (py "key") (py " 세종대로 110 ") PARCEL :: issued).
Proof.
  intros remote addr.
  assert (padded_row !! py "주소" = Some addr) as Hrow by reflexivity.
  assert (strip (@py_str plain_runtime addr) <> []) as Hstrip by py_ne.
  split; [exact Hrow|]. split; [reflexivity|]. split; [exact Hstrip|].
  destruct (@address_sent_as_written plain_runtime remote padded_row (py "주소") (py "key") []
              addr Hrow eq_refl Hstrip) as (res & issued & _ & Hproc).
  exists res, issued. exact Hproc.
Defined.

(** X15 on the sample table asked for a column it does not have. *)
Lemma missing_column_aborts_batch_witness :
  let services := fun _ : nat => always 200 (ok_reply 127.0 37.5) in
  let row : gmap pystr value := <[py "주소" := VNone]> (<[py "id" := VInt 2]> ∅) in
  let futures :=
    @Geocoding.submit_all plain_runtime services sample_table (py "도로명") (py "key") in
  row ∈ sample_table
  /\ row !! py "도로명" = None
  /\ @Geocoding.collect plain_runtime ([], 0%nat) (reverse futures)
     = inl (KeyError (py "도로명")).
Proof.
  intros services row futures.
  assert (row ∈ sample_table) as Hin by (right; left).
  assert (row !! py "도로명" = None) as Hnone by reflexivity.
  split; [exact Hin|]. split; [exact Hnone|].
  exact (@missing_column_aborts_batch plain_runtime services sample_table (py "도로명")
           (py "key") (reverse futures) row Hin Hnone (reverse_Permutation _)).
Defined.

(** X16 on the row that has an error column, with a service that answers
    OK: the row is found and keeps the sheet's error text. *)
Lemma sheet_columns_named_like_results_witness :
  let remote := always 200 (ok_reply 127.0 37.5) in
  row_with_error_column !! py "주소" = Some (VStr (py "세종대로 110"))
  /\ exists res rr,
       (@Geocoding.process_row plain_runtime remote row_with_error_column
          (py "주소") (py "key") []).1 = inr (res ∪ row_with_error_column)
       /\ @Geocoding.with_tm plain_runtime (res ∪ row_with_error_column) = inr rr.
Proof.
  intros remote.
  assert (row_with_error_column !! py "주소" = Some (VStr (py "세종대로 110"))) as Hrow
    by reflexivity.
  split; [exact Hrow|].
  destruct (@sheet_columns_named_like_results plain_runtime remote row_with_error_column
              (py "주소") (py "key") [] (VStr (py "세종대로 110")) Hrow)
    as (res & rr & _ & Hproc & Htm & _).
  exists res, rr. split; [exact Hproc | exact Htm].
Defined.

(** X17 on the sample table with the tasks finishing in reverse order. *)
Lemma collect_counts_what_it_appends_witness :
  let services := fun _ : nat => always 200 (ok_reply 127.0 37.5) in
  let completed :=
    reverse (@Geocoding.submit_all plain_runtime services sample_table (py "주소") (py "key")) in
  exists st',
    @Geocoding.collect plain_runtime ([], 0%nat) completed = inr st'
    /\ st'.2 = (0 + length completed)%nat
    /\ exists added, st'.1 = [] ++ added /\ length added = length completed.
Proof.
  intros services completed.
  eexists. split; [exact sample_batch_reversed|].
  exact (@collect_counts_what_it_appends plain_runtime completed ([], 0%nat) _
           sample_batch_reversed).
Defined.

(** X18 on the sample table with the tasks finishing in reverse order. *)
Lemma results_follow_completion_order_witness :
  let services := fun _ : nat => always 200 (ok_reply 127.0 37.5) in
  let futures :=
    @Geocoding.submit_all plain_runtime services sample_table (py "주소") (py "key") in
  Forall (fun row : gmap pystr value => is_Some (row !! py "주소")) sample_table
  /\ reverse futures ≡ₚ futures
  /\ exists results,
       @Geocoding.collect plain_runtime ([], 0%nat) (reverse futures)
       = inr (results, length sample_table).
Proof.
  intros services futures.
  split; [exact sample_table_has_address|]. split; [apply reverse_Permutation|].
  destruct (@results_follow_completion_order plain_runtime services sample_table
              (py "주소") (py "key") (reverse futures)
              sample_table_has_address (reverse_Permutation _))
    as (results & Hcollect & _).
  exists results. exact Hcollect.
Defined.

(** X19 on the sample table with the tasks finishing in reverse order. *)
Lemma result_rows_are_shaped_witness :
  let services := fun _ : nat => always 200 (ok_reply 127.0 37.5) in
  let futures :=
    @Geocoding.submit_all plain_runtime services sample_table (py "주소") (py "key") in
  exists results,
    @Geocoding.collect plain_runtime ([], 0%nat) (reverse futures) = inr (results, 3%nat)
    /\ Forall result_row_shape results.
Proof.
  intros services futures.
  eexists. split; [exact sample_batch_reversed|].
  exact (@result_rows_are_shaped plain_runtime services sample_table (py "주소") (py "key")
           (reverse futures) _ 3%nat (reverse_Permutation _) sample_batch_reversed).
Defined.

(** X20 on the table of an upload without data rows: the loop ends with no
    result row, and the export raises. *)
Lemma export_needs_found_column_witness :
  @Geocoding.collect plain_runtime ([], 0%nat)
     (@Geocoding.submit_all plain_runtime (fun _ => always 200 (ok_reply 127.0 37.5)) []
        (py "주소") (py "key"))
  = inr ([], 0%nat)
  /\ convert_to_shp_zip counting_zip (DataFrame_of []) (py "주소록_g60")
     = inl (KeyError (py "found")).
Proof.
  split; [reflexivity|].
  exact (export_needs_found_column counting_zip [] (py "주소록_g60") (Forall_nil_2 _)).
Defined.

Lemma sample_results_shaped : Forall result_row_shape sample_results.
Proof.
  apply Forall_cons. split; [|apply Forall_singleton].
  - right. split; [reflexivity|]. by eexists.
  - left. split; [reflexivity|]. by eexists _, _, _, _.
Qed.

(** X21 on the sample result table, which has a found row. *)
Lemma export_none_iff_nothing_found_witness :
  sample_results <> []
  /\ Forall result_row_shape sample_results
  /\ (convert_to_shp_zip counting_zip (DataFrame_of sample_results) (py "주소록_g60") = inr None
      <-> Forall (fun rr => is_found rr = false) sample_results).
Proof.
  assert (sample_results <> []) as Hne by discriminate.
  split; [exact Hne|]. split; [exact sample_results_shaped|].
  exact (export_none_iff_nothing_found counting_zip sample_results (py "주소록_g60")
           Hne sample_results_shaped).
Defined.

(** X22 on the sample result table: one point, that of the found row. *)
Lemma export_points_are_found_rows_witness :
  Forall result_row_shape sample_results
  /\ Exists (fun rr => is_found rr = true) sample_results
  /\ exists points,
       convert_to_shp_zip counting_zip (DataFrame_of sample_results) (py "주소록_g60")
       = (zip_bytes <~ counting_zip (py "EPSG:4326") (py "주소록_g60")
                         (List.filter is_found sample_results) points ;;
          inr (Some zip_bytes))
       /\ length points = length (List.filter is_found sample_results).
Proof.
  assert (Exists (fun rr => is_found rr = true) sample_results) as Hex.
  { apply Exists_cons_tl, Exists_cons_hd. reflexivity. }
  split; [exact sample_results_shaped|]. split; [exact Hex|].
  destruct (export_points_are_found_rows counting_zip sample_results (py "주소록_g60")
              sample_results_shaped Hex) as (points & Hconv & Hpts).
  exists points. split; [exact Hconv|]. symmetry. exact (Forall2_length _ _ _ Hpts).
Defined.

(** The export of the sample result table, evaluated: the writer gets one
    point, (127.0, 37.5). *)
Example sample_export :
  convert_to_shp_zip
    (fun crs file_name_prefix rows points =>
       match points with
       | [ (VFloat x, VFloat y) ] =>
         if (PrimFloat.eqb x 127.0 && PrimFloat.eqb y 37.5)%bool then inr [1%N] else inr [0%N]
       | _ => inr []
       end)
    (DataFrame_of sample_results) (py "주소록_g60")
  = inr (Some [1%N]).
Proof. vm_compute. reflexivity. Qed.
